(** * Sanar: approval-gated identifier formatting bot

    A shallow embedding of the two entry points of the repository,
    [src/bot.py] and [src/main.py], and the properties of their
    identifier extraction, output formatting, approval store and
    start-up configuration.

    Python strings are sequences of Unicode code points; the handlers are
    functions over an explicit program state (the module-level
    [pending_approvals] and [approved_users], and the per-user
    [context.user_data]) that log every gateway call they make. *)

From Stdlib Require Import ZArith NArith Ascii String DecimalString Lia.
From Stdlib Require DecimalPos.
From stdpp Require Import gmap list strings sorting.

Local Open Scope nat_scope.

(** ** Python strings *)

(** A Python [str] is the list of its code points. *)
Abbreviation text := (list N).

(** [py "abc"] is the [str] whose code points are the bytes of an ASCII
    literal. *)
Definition py (s : string) : text := N_of_ascii <$> list_ascii_of_string s.

(** The part of the Unicode character database that Python consults for
    code points outside ASCII. It is not part of the repository, so every
    definition below takes it as a parameter; the ASCII range is fixed by
    the definitions themselves. *)
Record unicode_data := UnicodeData {
  ud_decimal : N → option N;  (* Py_UNICODE_TODECIMAL, [None] for -1 *)
  ud_digit : N → bool;        (* digit value without a decimal value *)
  ud_numeric : N → bool;      (* numeric value without a digit value *)
  ud_alpha : N → bool;        (* Py_UNICODE_ISALPHA *)
  ud_space : N → bool;        (* Py_UNICODE_ISSPACE *)
  (** A decimal value is one of 0 to 9, and white space has none. *)
  ud_decimal_range : ∀ c d, ud_decimal c = Some d → (d < 10)%N;
  ud_space_decimal : ∀ c, ud_space c = true → ud_decimal c = None
}.

(** Latin-1 (code points below 256), the table used for the concrete
    examples: superscript 1, 2 and 3 are digits without a decimal value,
    the vulgar fractions are numeric, NEL and NBSP are white space. *)
Definition latin1 : unicode_data := {|
  ud_decimal := λ _, None;
  ud_digit := λ c, bool_decide (c ∈ [178; 179; 185]%N);
  ud_numeric := λ c, bool_decide (c ∈ [188; 189; 190]%N);
  ud_alpha := λ c,
    bool_decide (c ∈ [170; 181; 186]%N)
    || (192 <=? c)%N && (c <=? 255)%N && negb (c =? 215)%N && negb (c =? 247)%N;
  ud_space := λ c, bool_decide (c ∈ [133; 160]%N);
  ud_decimal_range := λ c d (H : None = Some d), match H with end;
  ud_space_decimal := λ _ _, eq_refl
|}.

Section Unicode.
Context (U : unicode_data).

Definition in_range (lo hi c : N) : bool := ((lo <=? c) && (c <=? hi))%N.

Definition to_decimal (c : N) : option N :=
  if (c <? 128)%N then (if in_range 48 57 c then Some (c - 48)%N else None)
  else ud_decimal U c.

(** [c.isdecimal()], the class [\d] of a [str] pattern. *)
Definition isdecimal (c : N) : bool :=
  match to_decimal c with Some _ => true | None => false end.

(** [c.isdigit()]: every character with a decimal value also has a digit
    value. *)
Definition isdigit_char (c : N) : bool :=
  isdecimal c || (128 <=? c)%N && ud_digit U c.

Definition isnumeric (c : N) : bool :=
  isdigit_char c || (128 <=? c)%N && ud_numeric U c.

Definition isalpha (c : N) : bool :=
  if (c <? 128)%N then in_range 65 90 c || in_range 97 122 c
  else ud_alpha U c.

(** [c.isalnum()] is [isalpha or isdecimal or isdigit or isnumeric]. *)
Definition isalnum (c : N) : bool :=
  isalpha c || isdecimal c || isdigit_char c || isnumeric c.

(** The class [\w] of a [str] pattern: alphanumerics and the underscore. *)
Definition is_word (c : N) : bool := isalnum c || (c =? 95)%N.

(** [c.isspace()]: in ASCII, TAB to CR, FS to US, and the space. *)
Definition isspace (c : N) : bool :=
  if (c <? 128)%N then in_range 9 13 c || in_range 28 32 c
  else ud_space U c.

(** [s.isdigit()]: at least one character, and all of them digits. *)
Definition isdigit (s : text) : bool :=
  match s with [] => false | _ => forallb isdigit_char s end.

(** [s.strip()]: leading and trailing white space removed. *)
Fixpoint lstrip (s : text) : text :=
  match s with
  | c :: s' => if isspace c then lstrip s' else s
  | [] => []
  end.

Definition rstrip (s : text) : text := reverse (lstrip (reverse s)).

Definition strip (s : text) : text := rstrip (lstrip s).

(** ** The regular expressions of the program *)

(** [\b] between two neighbouring characters ([None] past either edge of
    the string): exactly one of them is a word character. *)
Definition word_char (o : option N) : bool := from_option is_word false o.

Definition word_boundary (prev next : option N) : bool :=
  xorb (word_char prev) (word_char next).

(** Length of the longest prefix of decimal digits. *)
Fixpoint digit_run (s : text) : nat :=
  match s with
  | c :: s' => if isdecimal c then S (digit_run s') else 0
  | [] => 0
  end.

(** A greedy repetition followed by the rest of the pattern: the engine
    first takes [n] characters and gives them back one at a time, down to
    [lo], until the rest of the pattern [k] matches. *)
Fixpoint backtrack (k : nat → bool) (lo n : nat) : option nat :=
  if n <? lo then None
  else if k n then Some n
  else match n with
       | S n' => backtrack k lo n'
       | O => None
       end.

(** One attempt of [\b\d{5,}\b] at the position whose left neighbour is
    [prev] and whose remaining input is [s]; the length of the match. *)
Definition match_id (prev : option N) (s : text) : option nat :=
  if word_boundary prev (head s)
  then backtrack (λ n, word_boundary (s !! pred n) (s !! n)) 5 (digit_run s)
  else None.

(** The scan of [re.findall]: try each position from left to right; after
    a match the search resumes at its end ([skip] counts the characters of
    the last match still to be passed over). *)
Fixpoint scan (prev : option N) (s : text) (skip : nat) : list text :=
  match s with
  | [] => []
  | c :: s' =>
      match skip with
      | S k => scan (Some c) s' k
      | O =>
          match match_id prev s with
          | Some n => take n s :: scan (Some c) s' (pred n)
          | None => scan (Some c) s' 0
          end
      end
  end.

(** [re.findall(r'\b\d{5,}\b', message_text)] *)
Definition findall_ids (message_text : text) : list text :=
  scan None message_text 0.

(** The loop that removes duplicates while preserving order:
    [unique_ids] and [seen] after the iterations over [user_ids]. *)
Definition unique_step (st : list text * gset text) (uid : text)
  : list text * gset text :=
  if decide (uid ∈ st.2) then st
  else (st.1 ++ [uid], {[uid]} ∪ st.2).

Definition unique_ids (user_ids : list text) : list text :=
  (foldl unique_step ([], ∅) user_ids).1.

(** The extraction step of [process_user_ids]. *)
Definition extract_ids (message_text : text) : list text :=
  unique_ids (findall_ids message_text).

(** [sep.join(parts)] *)
Fixpoint join (sep : text) (parts : list text) : text :=
  match parts with
  | [] => []
  | p :: ps => match ps with [] => p | _ => p ++ sep ++ join sep ps end
  end.

(** [s.split(sep)] for a separator of one character. *)
Fixpoint split (sep : N) (s : text) : list text :=
  match s with
  | [] => [[]]
  | c :: s' =>
      if decide (c = sep) then [] :: split sep s'
      else match split sep s' with
           | p :: ps => (c :: p) :: ps
           | [] => [[c]]
           end
  end.

(** [str(n)] for an integer. *)
Definition str_of_int (n : Z) : text :=
  py (DecimalString.NilZero.string_of_int (Z.to_int n)).

(** ** [int(s)]

    CPython first rewrites the string to ASCII: a code point below 127
    stays, white space becomes a space, a character with a decimal value
    becomes that ASCII digit, and anything else becomes ['?'], which no
    number contains. The result is read as optional white space, an
    optional sign, groups of digits separated by single underscores, and
    optional white space. A number of more than
    [sys.get_int_max_str_digits()] digits is refused with the same
    [ValueError]; neither program changes the interpreter's default of
    4300. *)
Definition to_ascii (c : N) : N :=
  if (c <? 127)%N then c
  else if isspace c then 32%N
  else match to_decimal c with Some d => (48 + d)%N | None => 63%N end.

(** [Py_ISSPACE] *)
Definition c_isspace (c : N) : bool := in_range 9 13 c || (c =? 32)%N.

Fixpoint skip_spaces (s : text) : text :=
  match s with
  | c :: s' => if c_isspace c then skip_spaces s' else s
  | [] => []
  end.

(** Digits and underscores up to the end of the ASCII string, [acc] the
    value read so far; [need_digit] holds at the start and after an
    underscore. *)
Fixpoint digits_value (acc : Z) (need_digit : bool) (s : text) : option Z :=
  match s with
  | [] => if need_digit then None else Some acc
  | c :: s' =>
      if (c =? 95)%N then
        if need_digit then None else digits_value acc true s'
      else if in_range 48 57 c then
        digits_value (10 * acc + Z.of_N (c - 48)) false s'
      else None
  end.

Definition signed_value (s : text) : option Z :=
  match s with
  | c :: s' =>
      if (c =? 43)%N then digits_value 0 true s'
      else if (c =? 45)%N then Z.opp <$> digits_value 0 true s'
      else digits_value 0 true s
  | [] => None
  end.

(** [sys.get_int_max_str_digits()] *)
Definition int_max_str_digits : nat := 4300.

(** The digits the guard counts: the sign and the underscores are left
    out, leading zeros are not. *)
Definition digit_count (s : text) : nat :=
  length (filter (λ c, in_range 48 57 c = true) s).

(** [int(s)], [None] for [ValueError]. *)
Definition py_int (s : text) : option Z :=
  let ascii :=
    reverse (skip_spaces (reverse (skip_spaces (to_ascii <$> s)))) in
  if decide (digit_count ascii ≤ int_max_str_digits)
  then signed_value ascii
  else None.

(** ** OutputFormatter: the final block of [process_amount] *)

(** [formatted_lines] after the loop over [user_ids]. *)
Definition formatted_lines (user_ids : list text) (amount : text)
  : list text :=
  foldl (λ lines user_id, lines ++ [user_id ++ [32%N] ++ amount]) [] user_ids.

Definition final_output (user_ids : list text) (amount : text) : text :=
  join [10%N] (formatted_lines user_ids amount).

(** ** The dispatch pattern of the decision buttons *)

(** [$]: the end of the string, or just before a final newline. *)
Definition at_end (s : text) : bool :=
  bool_decide (s = [] ∨ s = [10%N]).

(** [s] with the literal [p] taken off its front. *)
Definition literal (p s : text) : option text :=
  if decide (take (length p) s = p) then Some (drop (length p) s) else None.

(** [_\d+$] *)
Definition match_identity (s : text) : bool :=
  match s with
  | c :: ds =>
      (c =? 95)%N
      && bool_decide
           (is_Some (backtrack (λ n, at_end (drop n ds)) 1 (digit_run ds)))
  | [] => false
  end.

(** [re.match(r'^(approve|reject)_\d+$', data)]: the alternatives are
    tried in order. *)
Definition match_decision (data : text) : bool :=
  existsb
    (λ action,
       match literal action data with
       | Some rest => match_identity rest
       | None => false
       end)
    [py "approve"; py "reject"].

(** [action, user_id = data.split("_")] followed by [int(user_id)]: the
    unpacking needs exactly two parts; [None] for [ValueError]. *)
Definition parse_decision (data : text) : option (text * Z) :=
  match split 95%N data with
  | [action; user_id] => pair action <$> py_int user_id
  | _ => None
  end.

End Unicode.

(** ** Program state and gateway *)

(** [update.effective_user] *)
Record user := User {
  user_id : Z;
  username : option text;
  first_name : text;
  last_name : option text
}.

(** A value of [pending_approvals]: the dict stored by [start]. *)
Record profile := Profile {
  p_username : option text;
  p_first_name : text;
  p_last_name : text
}.

(** The module-level [pending_approvals] and [approved_users], and
    [context.user_data] of every user: the list under its only key
    ['user_ids'], when the key is set. *)
Record world := World {
  pending_approvals : gmap Z profile;
  approved_users : gset Z;
  user_data : gmap Z (list text)
}.

Definition initial : world := World ∅ ∅ ∅.

(** Conversation states; [END] is [ConversationHandler.END]. *)
Inductive conv_state :=
  | WAITING_FOR_IDS | WAITING_FOR_AMOUNT | WAITING_FOR_USER_ID | END.

(** The messages of the program: a constructor names the fixed text and
    keyboard, and carries the parts computed at run time. (The two files
    word and lay out some of the texts differently.) *)
Inductive notice :=
  | AdminMenu              (* buttons payment_format and message_user *)
  | AdminOnly
  | AskUserId
  | InvalidUserId
  | MessageUserLink (user_id : Z)   (* button tg://openmessage?user_id=.. *)
  | ErrorOccurred          (* An error occurred. Please try again later. *)
  | ErrorRestart           (* An error occurred. Please try again with /start *)
  | ConfigurationError
  | NewUserRequest (user_info approve_data reject_data : text)
  | RequestSent
  | UserApproved (user_id : Z) (username first_name last_name : text)
  | UserRejected (user_id : Z) (username first_name last_name : text)
  | RequestApproved
  | RequestRejected
  | Welcome                (* button payment_format *)
  | SendIds
  | NoIdsFound
  | FoundIds (count : nat) (ids_formatted : text)
  | InvalidAmount
  | NoStoredIds
  | FormattedOutput (final_output : text)
  | FormatMore             (* button payment_format *)
  | Cancelled
  | Help (admin : bool).

(** The calls a handler makes to the messaging gateway. A reply goes to the
    chat of the update, whether it is sent through [update.message] or
    through [update.callback_query.message]. *)
Inductive call :=
  | answer
  | edit_message_text (n : notice)
  | send_message (chat_id : Z) (n : notice)
  | reply_text (n : notice).

Inductive exception := ValueError | TelegramError.

Inductive outcome (A : Type) :=
  | Returned (a : A)
  | Raised (e : exception).
Arguments Returned {A} a.
Arguments Raised {A} e.

(** A handler runs on the program state and the list of gateway calls made
    so far, and returns or raises. *)
Definition M (A : Type) : Type :=
  world → list call → outcome A * world * list call.

#[global] Instance M_ret : MRet M := λ A a w out, (Returned a, w, out).

#[global] Instance M_bind : MBind M := λ A B f m w out,
  match m w out with
  | (Returned a, w', out') => f a w' out'
  | (Raised e, w', out') => (Raised e, w', out')
  end.

Definition raise {A} (e : exception) : M A := λ w out, (Raised e, w, out).

(** [try: body / except Exception: handler] *)
Definition try_except {A} (body : M A) (handler : exception → M A) : M A :=
  λ w out,
    match body w out with
    | (Returned a, w', out') => (Returned a, w', out')
    | (Raised e, w', out') => handler e w' out'
    end.

Definition get : M world := λ w out, (Returned w, w, out).
Definition modify (f : world → world) : M unit := λ w out, (Returned (), f w, out).

(** A value that may be a [ValueError]. *)
Definition value {A} (o : option A) : M A :=
  match o with Some a => mret a | None => raise ValueError end.

Definition set_pending (f : gmap Z profile → gmap Z profile) (w : world) :=
  World (f (pending_approvals w)) (approved_users w) (user_data w).
Definition set_approved (f : gset Z → gset Z) (w : world) :=
  World (pending_approvals w) (f (approved_users w)) (user_data w).
Definition set_user_data (f : gmap Z (list text) → gmap Z (list text)) (w : world) :=
  World (pending_approvals w) (approved_users w) (f (user_data w)).

(** [user_info.get(key, default)] on [pending_approvals.get(user_id, {})],
    as the f-string prints it: [None] is printed as the word None. *)
Definition shown_username (user_info : option profile) : text :=
  match user_info with
  | Some p => default (py "None") (p_username p)
  | None => py "No username"
  end.
Definition shown_first_name (user_info : option profile) : text :=
  from_option p_first_name [] user_info.
Definition shown_last_name (user_info : option profile) : text :=
  from_option p_last_name [] user_info.

(** [UserManager.get_user_info] *)
Definition get_user_info (user_id : Z) (username first_name last_name : text)
  : text :=
  [127380%N] ++ py " User ID: " ++ str_of_int user_id ++ [10%N]
  ++ [128100%N] ++ py " Username: @"
  ++ (match username with [] => py "No username" | _ => username end) ++ [10%N]
  ++ [128219%N] ++ py " Name: " ++ first_name ++ py " " ++ last_name.

(** ** Handlers *)

(** An update that carries a message (a command or a text) and one that
    carries a button press. *)
Record message_update := MessageUpdate {
  effective_user : user;
  message_text : text
}.

Record callback_update := CallbackUpdate {
  from_user : Z;
  data : text
}.

Section Shared.
Context (U : unicode_data).
(** Whether the gateway carries out a call, or raises. *)
Context (gateway : call → bool).

Definition await (c : call) : M unit := λ w out,
  if gateway c then (Returned (), w, out ++ [c])
  else (Raised TelegramError, w, out).

(** [pending_approvals[user_id] = {...}] in [start]. *)
Definition store_request (user : user) : M unit :=
  modify (set_pending
    <[user_id user := Profile (username user) (first_name user)
                        (default [] (last_name user))]>).

(** The request shown to the administrator, with its two buttons. *)
Definition new_user_request (user : user) : notice :=
  NewUserRequest
    (get_user_info (user_id user)
       (default (py "No username") (username user))
       (first_name user) (default [] (last_name user)))
    (py "approve_" ++ str_of_int (user_id user))
    (py "reject_" ++ str_of_int (user_id user)).

(** The two branches of [handle_approval], the same in both files: a
    failure to notify the user is caught and logged. *)
Definition decide_request (action : text) (user_id : Z) : M unit :=
  if decide (action = py "approve") then
    modify (set_approved (λ s, {[user_id]} ∪ s)) ;;
    w ← get;
    let user_info := pending_approvals w !! user_id in
    await (edit_message_text
             (UserApproved user_id (shown_username user_info)
                (shown_first_name user_info) (shown_last_name user_info))) ;;
    try_except (await (send_message user_id RequestApproved)) (λ _, mret ())
  else if decide (action = py "reject") then
    w ← get;
    let user_info := pending_approvals w !! user_id in
    await (edit_message_text
             (UserRejected user_id (shown_username user_info)
                (shown_first_name user_info) (shown_last_name user_info))) ;;
    try_except (await (send_message user_id RequestRejected)) (λ _, mret ())
  else mret ().

(** The statements of [handle_approval] from [query.answer()] to
    [pending_approvals.pop(user_id, None)]. *)
Definition handle_approval_body (update : callback_update) : M unit :=
  await answer ;;
  '(action, user_id) ← value (parse_decision U (data update));
  decide_request action user_id ;;
  modify (set_pending (delete user_id)).

(** The statements of [process_user_ids], the same in both files. *)
Definition process_user_ids_body (update : message_update)
  : M (option conv_state) :=
  let user_ids := findall_ids U (message_text update) in
  match user_ids with
  | [] => await (reply_text NoIdsFound) ;; mret (Some WAITING_FOR_IDS)
  | _ =>
      let unique := unique_ids user_ids in
      modify (set_user_data <[user_id (effective_user update) := unique]>) ;;
      await (reply_text (FoundIds (length unique) (join [10%N] unique))) ;;
      mret (Some WAITING_FOR_AMOUNT)
  end.

(** The statements of [process_amount]; the files differ in the menu
    shown at the end, [follow_up]. *)
Definition process_amount_body (follow_up : M unit) (update : message_update)
  : M (option conv_state) :=
  let amount := strip U (message_text update) in
  match amount with
  | [] => await (reply_text InvalidAmount) ;; mret (Some WAITING_FOR_AMOUNT)
  | _ =>
      w ← get;
      let user_ids :=
        default [] (user_data w !! user_id (effective_user update)) in
      match user_ids with
      | [] => await (reply_text NoStoredIds) ;; mret (Some END)
      | _ =>
          await (reply_text (FormattedOutput (final_output user_ids amount))) ;;
          modify (set_user_data (delete (user_id (effective_user update)))) ;;
          follow_up ;;
          mret (Some END)
      end
  end.

Definition handle_payment_format_body : M (option conv_state) :=
  await answer ;;
  await (edit_message_text SendIds) ;;
  mret (Some WAITING_FOR_IDS).

Definition cancel_body (update : message_update) : M unit :=
  modify (set_user_data (delete (user_id (effective_user update)))) ;;
  await (reply_text Cancelled).
End Shared.

(** *** [src/bot.py] *)
Module Bot.
Section Handlers.
Context (U : unicode_data) (ADMIN_ID : Z) (gateway : call → bool).

Definition show_admin_menu : M unit := await gateway (reply_text AdminMenu).

Definition show_payment_format : M unit :=
  try_except (await gateway (reply_text Welcome)) (λ _, mret ()).

Definition start (update : message_update) : M (option conv_state) :=
  let user := effective_user update in
  try_except
    (if decide (user_id user = ADMIN_ID) then
       show_admin_menu ;; mret None
     else
       w ← get;
       if decide (user_id user ∈ approved_users w) then
         show_payment_format ;; mret None
       else
         store_request user ;;
         await gateway (send_message ADMIN_ID (new_user_request user)) ;;
         await gateway (reply_text RequestSent) ;;
         mret None)
    (λ _, await gateway (reply_text ErrorOccurred) ;; mret None).

Definition handle_message_user (update : callback_update)
  : M (option conv_state) :=
  try_except
    (await gateway answer ;;
     if decide (from_user update ≠ ADMIN_ID) then
       await gateway (edit_message_text AdminOnly) ;; mret None
     else
       await gateway (edit_message_text AskUserId) ;;
       mret (Some WAITING_FOR_USER_ID))
    (λ _, mret (Some END)).

Definition get_user_id_for_message (update : message_update)
  : M (option conv_state) :=
  try_except
    (let user_input := strip U (message_text update) in
     if negb (isdigit U user_input) || bool_decide (length user_input < 5) then
       await gateway (reply_text InvalidUserId) ;;
       mret (Some WAITING_FOR_USER_ID)
     else
       user_id ← value (py_int U user_input);
       await gateway (reply_text (MessageUserLink user_id)) ;;
       show_admin_menu ;;
       mret (Some END))
    (λ _, await gateway (reply_text ErrorRestart) ;; mret (Some END)).

Definition handle_approval (update : callback_update)
  : M (option conv_state) :=
  try_except (handle_approval_body U gateway update ;; mret None)
    (λ _, mret None).

Definition handle_payment_format (update : callback_update)
  : M (option conv_state) :=
  try_except (handle_payment_format_body gateway) (λ _, mret (Some END)).

Definition process_user_ids (update : message_update)
  : M (option conv_state) :=
  try_except (process_user_ids_body U gateway update)
    (λ _, await gateway (reply_text ErrorRestart) ;; mret (Some END)).

Definition process_amount (update : message_update)
  : M (option conv_state) :=
  try_except
    (process_amount_body U gateway
       (if decide (user_id (effective_user update) = ADMIN_ID)
        then show_admin_menu
        else await gateway (reply_text FormatMore))
       update)
    (λ _, await gateway (reply_text ErrorRestart) ;; mret (Some END)).

Definition cancel (update : message_update) : M (option conv_state) :=
  try_except (cancel_body gateway update) (λ _, mret ()) ;;
  mret (Some END).

Definition help_command (update : message_update) : M (option conv_state) :=
  try_except
    (await gateway
       (reply_text
          (Help (bool_decide (user_id (effective_user update) = ADMIN_ID)))))
    (λ _, mret ()) ;;
  mret None.

(** An update together with the handler it is given to. *)
Inductive event :=
  | Start (update : message_update)
  | HelpCommand (update : message_update)
  | Cancel (update : message_update)
  | Approval (update : callback_update)
  | PaymentFormat (update : callback_update)
  | MessageUser (update : callback_update)
  | IdsText (update : message_update)
  | AmountText (update : message_update)
  | UserIdText (update : message_update).

Definition handle (ev : event) : M (option conv_state) :=
  match ev with
  | Start u => start u
  | HelpCommand u => help_command u
  | Cancel u => cancel u
  | Approval u => handle_approval u
  | PaymentFormat u => handle_payment_format u
  | MessageUser u => handle_message_user u
  | IdsText u => process_user_ids u
  | AmountText u => process_amount u
  | UserIdText u => get_user_id_for_message u
  end.
End Handlers.
Arguments event : clear implicits.

(** One update handled, whatever the gateway does: the state after it. *)
Inductive step (U : unicode_data) (ADMIN_ID : Z) : world → world → Prop :=
  | step_handle gateway (ev : event) w out :
      step U ADMIN_ID w (handle U ADMIN_ID gateway ev w out).1.2.

(** The module level of the file, run on the environment of the process:
    [sys.exit(1)], or the call of [main()] with the three settings.
    ([main()] builds the application and polls for updates; an exception
    inside it is caught there and ends in [sys.exit(1)] as well.) *)
Inductive startup :=
  | Exit (status : Z)
  | RunMain (BOT_TOKEN : text) (ADMIN_ID : Z) (OWNER_USERNAME : text).

Definition load (U : unicode_data) (environ : gmap string text) : startup :=
  let BOT_TOKEN := environ !! "BOT_TOKEN"%string in
  let ADMIN_ID := environ !! "ADMIN_ID"%string in
  let OWNER_USERNAME := default (py "@dtxzahid") (environ !! "OWNER_USERNAME"%string) in
  match BOT_TOKEN with
  | None | Some [] => Exit 1
  | Some token =>
      match ADMIN_ID with
      | None | Some [] => Exit 1
      | Some admin =>
          match py_int U admin with
          | None => Exit 1
          | Some admin_id => RunMain token admin_id OWNER_USERNAME
          end
      end
  end.
End Bot.

(** *** [src/main.py] *)
Module Main.
Section Handlers.
Context (U : unicode_data) (ADMIN_ID : Z) (gateway : call → bool).

Definition show_payment_format : M unit := await gateway (reply_text Welcome).

Definition start (update : message_update) : M (option conv_state) :=
  let user := effective_user update in
  w ← get;
  if decide (user_id user ∈ approved_users w) then
    show_payment_format ;; mret None
  else
    store_request user ;;
    sent ← try_except
      (await gateway (send_message ADMIN_ID (new_user_request user)) ;;
       mret true)
      (λ _, await gateway (reply_text ConfigurationError) ;; mret false);
    if sent : bool then await gateway (reply_text RequestSent) ;; mret None
    else mret None.

Definition handle_approval (update : callback_update)
  : M (option conv_state) :=
  handle_approval_body U gateway update ;; mret None.

Definition handle_payment_format (update : callback_update)
  : M (option conv_state) :=
  handle_payment_format_body gateway.

Definition process_user_ids (update : message_update)
  : M (option conv_state) :=
  process_user_ids_body U gateway update.

Definition process_amount (update : message_update)
  : M (option conv_state) :=
  process_amount_body U gateway (await gateway (reply_text FormatMore)) update.

Definition cancel (update : message_update) : M (option conv_state) :=
  cancel_body gateway update ;; mret (Some END).

Definition help_command (update : message_update) : M (option conv_state) :=
  await gateway (reply_text (Help false)) ;; mret None.

(** An update together with the handler it is given to. *)
Inductive event :=
  | Start (update : message_update)
  | HelpCommand (update : message_update)
  | Cancel (update : message_update)
  | Approval (update : callback_update)
  | PaymentFormat (update : callback_update)
  | IdsText (update : message_update)
  | AmountText (update : message_update).

Definition handle (ev : event) : M (option conv_state) :=
  match ev with
  | Start u => start u
  | HelpCommand u => help_command u
  | Cancel u => cancel u
  | Approval u => handle_approval u
  | PaymentFormat u => handle_payment_format u
  | IdsText u => process_user_ids u
  | AmountText u => process_amount u
  end.
End Handlers.
Arguments event : clear implicits.

Inductive step (U : unicode_data) (ADMIN_ID : Z) : world → world → Prop :=
  | step_handle gateway (ev : event) w out :
      step U ADMIN_ID w (handle U ADMIN_ID gateway ev w out).1.2.

(** The module level of the file: an exception there is not caught and
    ends the interpreter with a traceback (and exit status 1); otherwise
    [main()] is called, which builds the application and polls for
    updates. The token is not looked at before [main()] gives it to the
    library. *)
Inductive startup :=
  | Traceback (e : exception)
  | RunMain (BOT_TOKEN : option text) (ADMIN_ID : Z) (OWNER_USERNAME : text).

Definition load (U : unicode_data) (environ : gmap string text) : startup :=
  let BOT_TOKEN := environ !! "BOT_TOKEN"%string in
  let OWNER_USERNAME := default (py "@dtxzahid") (environ !! "OWNER_USERNAME"%string) in
  match environ !! "ADMIN_ID"%string with
  | None => RunMain BOT_TOKEN 0 OWNER_USERNAME
  | Some admin =>
      match py_int U admin with
      | None => Traceback ValueError
      | Some admin_id => RunMain BOT_TOKEN admin_id OWNER_USERNAME
      end
  end.
End Main.

(** ** Vocabulary of the specification *)

(** [s[i : i + n]] *)
Definition slice (s : text) (i n : nat) : text := take n (drop i s).

(** The [n] characters at position [i] of [s] are a run of at least five
    decimal digits, and no character of the class [joined] touches the run
    on either side. *)
Definition token_at (U : unicode_data) (joined : N → bool)
    (s : text) (i n : nat) : Prop :=
  5 ≤ n ∧ i + n ≤ length s ∧
  Forall (λ c, isdecimal U c = true) (slice s i n) ∧
  (i = 0 ∨ ∃ c, s !! (i - 1) = Some c ∧ joined c = false) ∧
  (∀ c, s !! (i + n) = Some c → joined c = false).

(** A whole token for the pattern: no word character (letter, digit or
    underscore) on either side. *)
Definition whole_token (U : unicode_data) : text → nat → nat → Prop :=
  token_at U (is_word U).

(** A whole token in the words of the specification: no alphanumeric
    character on either side. *)
Definition alnum_token (U : unicode_data) : text → nat → nat → Prop :=
  token_at U (isalnum U).

(** [r] lists every element of [l] once, in the order of the first
    occurrences in [l]. *)
Definition first_occurrences {A} (l r : list A) : Prop :=
  NoDup r ∧ (∀ x, x ∈ r ↔ x ∈ l) ∧
  ∀ i j x y, r !! i = Some x → r !! j = Some y → i < j →
    ∃ k, l !! k = Some x ∧ ∀ k', l !! k' = Some y → k < k'.

(** The result [r] of an extraction from [s], for a notion [token] of
    whole token: the tokens of [s] taken from left to right, each distinct
    one once, in the order of the first occurrences. *)
Definition extracts (token : text → nat → nat → Prop) (s : text)
    (r : list text) : Prop :=
  ∃ occ : list (nat * nat),
    StronglySorted (λ p q, p.1 < q.1) occ ∧
    (∀ i n, (i, n) ∈ occ ↔ token s i n) ∧
    first_occurrences ((λ p, slice s p.1 p.2) <$> occ) r.

(** The line of the formatted output for one token. *)
Definition line (amount token : text) : text := token ++ [32%N] ++ amount.

(** A run of a handler: what it returns or raises, the state it leaves and
    the gateway calls made up to its end. *)
Abbreviation run := (outcome (option conv_state) * world * list call)%type.





(** The calls that a run started after [out] has added. *)
Definition new_calls (out : list call) (r : run) : list call :=
  drop (length out) r.2.

(** The run returned [None] and the only call it made is the reply [n]. *)
Definition receives (n : notice) (out : list call) (r : run) : Prop :=
  r.1.1 = Returned None ∧ new_calls out r = [reply_text n].

(** The administrator is kept out of the approval workflow by a run from
    [w]: the menu is the only call, and no request is stored. *)
Definition administrator_excluded (w : world) (out : list call) (r : run)
  : Prop :=
  receives AdminMenu out r ∧ pending_approvals r.1.2 = pending_approvals w.

(** The two ends of [get_user_id_for_message]: the link to the identity
    followed by the menu, and the prompt for another identity. *)
Definition links_to (identity : Z) (w : world) (out : list call) (r : run)
  : Prop :=
  r = (Returned (Some END), w,
       out ++ [reply_text (MessageUserLink identity); reply_text AdminMenu]).

Definition asks_again (w : world) (out : list call) (r : run) : Prop :=
  r = (Returned (Some WAITING_FOR_USER_ID), w, out ++ [reply_text InvalidUserId]).

(** The test on the received text in the words of the specification. *)
Definition all_decimal_digits (U : unicode_data) (s : text) : bool :=
  forallb (isdecimal U) s && bool_decide (5 ≤ length s).

(** The number of characters of [s] that have a decimal value. *)
Definition decimal_digits (U : unicode_data) (s : text) : nat :=
  length (filter (λ c, isdecimal U c = true) s).

(** A start-up that ends the process before [main()] is called; the exit
    status is 1 in each case. *)
Definition bot_exits (s : Bot.startup) : Prop := s = Bot.Exit 1.
Definition main_exits (s : Main.startup) : Prop := ∃ e, s = Main.Traceback e.

(** * Properties *)

Example extract_invites :
  extract_ids latin1
    (py "6486714430 Got Invited By Your Url: +3 Rs" ++ [10%N]
     ++ py "7944746107 ...")
  = [py "6486714430"; py "7944746107"].
Proof. vm_compute. reflexivity. Qed.

Example extract_abc : extract_ids latin1 (py "abc123 12345") = [py "12345"].
Proof. vm_compute. reflexivity. Qed.

Example extract_dups :
  extract_ids latin1 (py "11111 22222 11111 x33333 44444y 55555_ 1234 666666")
  = [py "11111"; py "22222"; py "666666"].
Proof. vm_compute. reflexivity. Qed.

Example int_examples :
  py_int latin1 (py "12345") = Some 12345%Z ∧
  py_int latin1 (py " -1_000" ++ [10%N]) = Some (-1000)%Z ∧
  py_int latin1 (py "12 3") = None ∧
  py_int latin1 (py "1__0") = None ∧
  py_int latin1 (py "") = None ∧
  py_int latin1 [178%N] = None.
Proof. vm_compute. done. Qed.

Example split_examples :
  split 95%N (py "approve_123") = [py "approve"; py "123"] ∧
  split 95%N (py "a__b_") = [py "a"; []; py "b"; []] ∧
  split 95%N [] = [[]].
Proof. vm_compute. done. Qed.

Example format_example :
  final_output [py "111"; py "222"] (py "2.1") = py "111 2.1" ++ [10%N] ++ py "222 2.1".
Proof. vm_compute. done. Qed.

Example decision_examples :
  match_decision latin1 (py "approve_123") = true ∧
  match_decision latin1 (py "reject_5" ++ [10%N]) = true ∧
  match_decision latin1 (py "approve_") = false ∧
  match_decision latin1 (py "approve_12a") = false ∧
  match_decision latin1 (py "approved_12") = false ∧
  parse_decision latin1 (py "reject_5" ++ [10%N]) = Some (py "reject", 5%Z) ∧
  str_of_int 6486714430 = py "6486714430" ∧ str_of_int (-7) = py "-7".
Proof. vm_compute. done. Qed.

(** ** Identifier extraction *)

Section Extraction.
Context (U : unicode_data).

Lemma isdecimal_is_word c : isdecimal U c = true → is_word U c = true.
Proof. unfold is_word, isalnum. intros ->. by rewrite orb_true_r. Qed.

Lemma backtrack_Some k lo n m :
  backtrack k lo n = Some m →
  lo ≤ m ≤ n ∧ k m = true ∧ ∀ j, m < j ≤ n → k j = false.
Proof.
  induction n as [|n IH]; simpl.
  - destruct lo; simpl; [|done].
    destruct (k 0) eqn:Hk; [|done]. intros [= <-]. repeat split; auto; lia.
  - destruct (S n <? lo) eqn:Hlo; [done|]. apply Nat.ltb_ge in Hlo.
    destruct (k (S n)) eqn:Hk.
    + intros [= <-]. repeat split; auto; lia.
    + intros Hb. destruct (IH Hb) as (? & ? & Hj). repeat split; auto; try lia.
      intros j ?. destruct (decide (j = S n)) as [->|]; [done|]. apply Hj. lia.
Qed.

Lemma backtrack_top k lo n :
  lo ≤ n → k n = true → backtrack k lo n = Some n.
Proof.
  intros Hlo Hk. destruct n; simpl.
  - destruct lo; [|lia]. simpl. by rewrite Hk.
  - destruct (S n <? lo) eqn:E; [apply Nat.ltb_lt in E; lia|]. by rewrite Hk.
Qed.

Lemma digit_run_le s : digit_run U s ≤ length s.
Proof. induction s as [|c s IH]; simpl; [lia|]. destruct (isdecimal U c); simpl; lia. Qed.

Lemma digit_run_lookup s j :
  j < digit_run U s → ∃ c, s !! j = Some c ∧ isdecimal U c = true.
Proof.
  revert j. induction s as [|c s IH]; simpl; intros j Hj; [lia|].
  destruct (isdecimal U c) eqn:Hc; [|lia].
  destruct j; simpl; [eauto|]. apply IH. lia.
Qed.

Lemma digit_run_stop s c :
  s !! digit_run U s = Some c → isdecimal U c = false.
Proof.
  induction s as [|d s IH]; simpl; [done|].
  destruct (isdecimal U d) eqn:Hd; simpl; [done|]. by intros [= <-].
Qed.

Lemma digit_run_ge s n :
  n ≤ length s → Forall (λ c, isdecimal U c = true) (take n s) →
  n ≤ digit_run U s.
Proof.
  revert n. induction s as [|c s IH]; simpl; intros n Hn Hall.
  - lia.
  - destruct n; [lia|]. simpl in Hall. apply Forall_cons in Hall as [-> Hall].
    specialize (IH n ltac:(lia) Hall). lia.
Qed.

Lemma digit_run_take s :
  Forall (λ c, isdecimal U c = true) (take (digit_run U s) s).
Proof.
  induction s as [|c s IH]; simpl; [constructor|].
  destruct (isdecimal U c) eqn:Hc; simpl; [|constructor]. by constructor.
Qed.

(** One attempt of the pattern succeeds exactly on a maximal run of at
    least five digits that no word character touches. *)
Lemma match_id_Some prev s n :
  match_id U prev s = Some n ↔
  n = digit_run U s ∧ 5 ≤ n ∧
  word_char U prev = false ∧ word_char U (s !! n) = false.
Proof.
  unfold match_id, word_boundary. split.
  - destruct (xorb _ _) eqn:Hb; [|done]. intros Hm.
    apply backtrack_Some in Hm as ([Hlo Hhi] & Hk & _).
    destruct (digit_run_lookup s (pred n)) as (c & Hc & Hdc); [lia|].
    rewrite Hc in Hk. simpl in Hk. rewrite (isdecimal_is_word _ Hdc) in Hk.
    simpl in Hk. apply negb_true_iff in Hk.
    destruct (digit_run_lookup s 0) as (c0 & Hc0 & Hdc0); [lia|].
    rewrite head_lookup, Hc0 in Hb. simpl in Hb.
    rewrite (isdecimal_is_word _ Hdc0), xorb_true_r in Hb.
    apply negb_true_iff in Hb. repeat split; auto.
    destruct (decide (n = digit_run U s)) as [|Hne]; [done|].
    destruct (digit_run_lookup s n) as (c' & Hc' & Hdc'); [lia|].
    rewrite Hc' in Hk. simpl in Hk. by rewrite (isdecimal_is_word _ Hdc') in Hk.
  - intros (-> & Hlo & Hprev & Hnext).
    destruct (digit_run_lookup s 0) as (c0 & Hc0 & Hdc0); [lia|].
    rewrite head_lookup, Hc0, Hprev. simpl.
    rewrite (isdecimal_is_word _ Hdc0). simpl.
    apply backtrack_top; [done|].
    destruct (digit_run_lookup s (pred (digit_run U s))) as (c & Hc & Hdc); [lia|].
    rewrite Hc, Hnext. simpl. by rewrite (isdecimal_is_word _ Hdc).
Qed.

(** Inside a match every position has a digit on its left, so resuming
    the search at the end of the match skips no other match. *)
Lemma scan_skip prev s k :
  word_char U prev = true → k ≤ digit_run U s →
  scan U prev s k = scan U prev s 0.
Proof.
  revert prev k. induction s as [|c s IH]; intros prev k Hprev Hk; [done|].
  destruct k as [|k]; [done|]. cbn [scan digit_run] in *.
  destruct (isdecimal U c) eqn:Hc; [|lia].
  destruct (match_id U prev (c :: s)) as [n|] eqn:E.
  { apply match_id_Some in E as (_ & _ & E & _). congruence. }
  apply IH; [by apply isdecimal_is_word|lia].
Qed.

Lemma scan_cons prev c s :
  scan U prev (c :: s) 0 =
  from_option (λ n, [take n (c :: s)]) [] (match_id U prev (c :: s))
  ++ scan U (Some c) s 0.
Proof.
  cbn [scan]. destruct (match_id U prev (c :: s)) as [n|] eqn:E; [|done].
  apply match_id_Some in E as (-> & Hn & _). cbn [digit_run] in *.
  destruct (isdecimal U c) eqn:Hc; [|lia]. cbn [from_option pred app].
  f_equal. apply scan_skip; [by apply isdecimal_is_word|done].
Qed.

Lemma last_is_lookup (l : text) : last l = l !! pred (length l).
Proof.
  induction l as [|c [|d l] IH]; [done..|]. by rewrite last_cons_cons, IH.
Qed.

Lemma match_id_token pre s n :
  match_id U (last pre) s = Some n ↔
  whole_token U (pre ++ s) (length pre) n.
Proof.
  rewrite match_id_Some. unfold whole_token, token_at, slice.
  rewrite drop_app_length, length_app. split.
  - intros (-> & Hn & Hprev & Hnext). pose proof (digit_run_le s).
    repeat split; [done|lia|apply digit_run_take| |].
    + destruct pre as [|p pre _] using rev_ind; [by left|right].
      rewrite last_snoc in Hprev. exists p. split; [|done].
      rewrite length_app, <-app_assoc. simpl.
      replace (length pre + 1 - 1) with (length pre + 0) by lia.
      by rewrite lookup_app_r, Nat.add_0_r, Nat.sub_diag by lia.
    + intros c Hc. rewrite lookup_app_r in Hc by lia.
      replace (length pre + digit_run U s - length pre) with (digit_run U s) in Hc by lia.
      by rewrite Hc in Hnext.
  - intros (Hn & Hlen & Hall & Hleft & Hright).
    assert (n ≤ digit_run U s) by (apply digit_run_ge; [lia|done]).
    assert (word_char U (s !! n) = false) as Hnext.
    { destruct (s !! n) as [c|] eqn:Hc; [|done]. apply Hright.
      rewrite lookup_app_r by lia. by replace (length pre + n - length pre) with n by lia. }
    repeat split; [|done| |done].
    + destruct (decide (n = digit_run U s)) as [|Hne]; [done|].
      destruct (digit_run_lookup s n) as (c & Hc & Hdc); [lia|].
      rewrite Hc in Hnext. simpl in Hnext.
      by rewrite (isdecimal_is_word _ Hdc) in Hnext.
    + destruct pre as [|p pre _] using rev_ind; [done|].
      rewrite last_snoc. destruct Hleft as [Hz|(c & Hc & Hw)].
      { rewrite length_app in Hz. simpl in Hz. lia. }
      rewrite length_app, <-app_assoc in Hc. simpl in Hc.
      replace (length pre + 1 - 1) with (length pre + 0) in Hc by lia.
      rewrite lookup_app_r, Nat.add_0_r, Nat.sub_diag in Hc by lia.
      by injection Hc as ->.
Qed.

(** The matches found from a position on are the whole tokens that start
    at or after it, from left to right. *)
Lemma scan_tokens pre s :
  ∃ occ : list (nat * nat),
    StronglySorted (λ p q, p.1 < q.1) occ ∧
    (∀ i n, (i, n) ∈ occ ↔ length pre ≤ i ∧ whole_token U (pre ++ s) i n) ∧
    scan U (last pre) s 0 = (λ p, slice (pre ++ s) p.1 p.2) <$> occ.
Proof.
  revert pre. induction s as [|c s IH]; intros pre.
  - exists []. split; [constructor|]. split; [|done].
    intros i n. split; [by intros ?%elem_of_nil|].
    intros (Hi & Hn & Hlen & _). rewrite length_app in Hlen. simpl in Hlen. lia.
  - destruct (IH (pre ++ [c])) as (occ & Hsort & Hocc & Hscan).
    rewrite <-app_assoc, last_snoc, length_app in *. simpl in Hocc, Hscan.
    rewrite scan_cons, Hscan.
    destruct (match_id U (last pre) (c :: s)) as [n|] eqn:E.
    + exists ((length pre, n) :: occ). split; [|split].
      * constructor; [done|]. apply Forall_forall. intros [j m] Hjm.
        apply Hocc in Hjm as [? _]. simpl. lia.
      * intros i m. rewrite elem_of_cons, Hocc. split.
        -- intros [[= -> ->]|[? ?]]; [|split; [lia|done]].
           split; [done|]. by apply match_id_token.
        -- intros [Hi Htok]. destruct (decide (i = length pre)) as [->|].
           ++ left. apply match_id_token in Htok. congruence.
           ++ right. split; [lia|done].
      * simpl. f_equal. unfold slice. by rewrite drop_app_length.
    + exists occ. split; [done|]. split; [|done].
      intros i m. rewrite Hocc. split; [intros [? ?]; split; [lia|done]|].
      intros [Hi Htok]. split; [|done].
      destruct (decide (i = length pre)) as [->|]; [|lia].
      apply match_id_token in Htok. congruence.
Qed.

(** [findall] returns the whole tokens of the text, from left to right. *)
Lemma findall_ids_tokens message_text :
  ∃ occ : list (nat * nat),
    StronglySorted (λ p q, p.1 < q.1) occ ∧
    (∀ i n, (i, n) ∈ occ ↔ whole_token U message_text i n) ∧
    findall_ids U message_text = (λ p, slice message_text p.1 p.2) <$> occ.
Proof.
  destruct (scan_tokens [] message_text) as (occ & ? & Hocc & ?).
  exists occ. split; [done|]. split; [|done].
  intros i n. rewrite Hocc. simpl. split; [tauto|]. split; [lia|done].
Qed.

(** The loop over [user_ids] keeps the first occurrence of every
    identifier. *)
Lemma unique_loop (user_ids : list text) :
  let st := foldl unique_step ([], ∅) user_ids in
  (∀ x, x ∈ st.2 ↔ x ∈ st.1) ∧ first_occurrences user_ids st.1.
Proof.
  induction user_ids as [|u l IH] using rev_ind; simpl.
  - split; [set_solver|]. split; [constructor|]. split; [done|].
    intros i j x y Hx. by rewrite lookup_nil in Hx.
  - rewrite foldl_app. simpl. simpl in IH.
    destruct (foldl unique_step ([], ∅) l) as [r seen].
    destruct IH as (Hseen & Hnd & Hel & Hord). unfold unique_step. simpl in *.
    destruct (decide (u ∈ seen)) as [Hin|Hnin]; simpl.
    + split; [done|]. split; [done|]. split.
      * intros x. rewrite Hel, elem_of_app, list_elem_of_singleton.
        split; [tauto|]. intros [?| ->]; [done|]. by apply Hel, Hseen.
      * intros i j x y Hx Hy Hij.
        destruct (Hord i j x y Hx Hy Hij) as (k & Hk & Hfirst).
        exists k. split; [by apply lookup_app_l_Some|].
        intros k' Hk'. apply lookup_app_Some in Hk' as [?|[? _]]; [by apply Hfirst|].
        apply lookup_lt_Some in Hk. lia.
    + assert (u ∉ r) as Hur by (by rewrite <-Hseen).
      split; [|split; [|split]].
      * intros x. rewrite elem_of_union, elem_of_singleton, elem_of_app,
          list_elem_of_singleton, Hseen. tauto.
      * apply NoDup_app. split; [done|]. split; [|apply NoDup_singleton].
        intros x Hx ->%list_elem_of_singleton. done.
      * intros x. rewrite !elem_of_app, Hel. tauto.
      * intros i j x y Hx Hy Hij.
        apply lookup_app_Some in Hy as [Hy|[Hj Hy]].
        -- rewrite lookup_app_l in Hx by (apply lookup_lt_Some in Hy; lia).
           destruct (Hord i j x y Hx Hy Hij) as (k & Hk & Hfirst).
           exists k. split; [by apply lookup_app_l_Some|].
           intros k' Hk'. apply lookup_app_Some in Hk' as [?|[? _]]; [by apply Hfirst|].
           apply lookup_lt_Some in Hk. lia.
        -- apply list_lookup_singleton_Some in Hy as [Hj0 <-].
           rewrite lookup_app_l in Hx by lia.
           assert (x ∈ l) as Hxl by (apply Hel, list_elem_of_lookup; eauto).
           apply list_elem_of_lookup in Hxl as [k Hk].
           exists k. split; [by apply lookup_app_l_Some|].
           intros k' Hk'. apply lookup_app_Some in Hk' as [Hk'|[? _]].
           ++ exfalso. apply Hur, Hel, list_elem_of_lookup. eauto.
           ++ apply lookup_lt_Some in Hk. lia.
Qed.

(** A whole token is a maximal run: the characters next to it are not
    decimal digits. *)
Lemma whole_token_maximal s i n :
  whole_token U s i n →
  (i = 0 ∨ ∃ c, s !! (i - 1) = Some c ∧ isdecimal U c = false) ∧
  (∀ c, s !! (i + n) = Some c → isdecimal U c = false).
Proof.
  intros (_ & _ & _ & Hleft & Hright). split.
  - destruct Hleft as [?|(c & Hc & Hw)]; [by left|right]. exists c. split; [done|].
    destruct (isdecimal U c) eqn:Hd; [|done]. by rewrite (isdecimal_is_word _ Hd) in Hw.
  - intros c Hc. specialize (Hright c Hc).
    destruct (isdecimal U c) eqn:Hd; [|done]. by rewrite (isdecimal_is_word _ Hd) in Hright.
Qed.

Lemma match_id_after_word prev s :
  word_char U prev = true → match_id U prev s = None.
Proof.
  intros Hprev. destruct (match_id U prev s) as [n|] eqn:E; [|done].
  apply match_id_Some in E as (_ & _ & E & _). congruence.
Qed.

(** Digits that follow a word character are passed over. *)
Lemma scan_digits prev ds tail :
  word_char U prev = true → Forall (λ c, isdecimal U c = true) ds →
  ∃ prev', word_char U prev' = true ∧
    scan U prev (ds ++ tail) 0 = scan U prev' tail 0.
Proof.
  revert prev. induction ds as [|c ds IH]; intros prev Hprev Hall; [by eauto|].
  apply Forall_cons in Hall as [Hc Hall].
  change ((c :: ds) ++ tail) with (c :: (ds ++ tail)).
  rewrite scan_cons, match_id_after_word by done. simpl.
  apply IH; [by apply isdecimal_is_word|done].
Qed.

Lemma digit_run_app ds tail :
  Forall (λ c, isdecimal U c = true) ds →
  (∀ c, head tail = Some c → isdecimal U c = false) →
  digit_run U (ds ++ tail) = length ds.
Proof.
  intros Hall Htail. induction Hall as [|c ds Hc _ IH]; simpl.
  - destruct tail as [|c tail]; [done|]. simpl. by rewrite (Htail c).
  - by rewrite Hc, IH.
Qed.

(** An identifier between two characters that are not word characters is
    found, and the search goes on behind it. *)
Lemma scan_identifier prev id tail :
  word_char U prev = false →
  5 ≤ length id → Forall (λ c, isdecimal U c = true) id →
  word_char U (head tail) = false →
  ∃ prev', word_char U prev' = true ∧
    scan U prev (id ++ tail) 0 = id :: scan U prev' tail 0.
Proof.
  intros Hprev Hlen Hall Htail.
  assert (digit_run U (id ++ tail) = length id) as Hrun.
  { apply digit_run_app; [done|]. intros c Hc. rewrite Hc in Htail. simpl in Htail.
    destruct (isdecimal U c) eqn:Hd; [|done].
    by rewrite (isdecimal_is_word _ Hd) in Htail. }
  assert (match_id U prev (id ++ tail) = Some (length id)) as Hmatch.
  { apply match_id_Some. rewrite Hrun. split_and!; [done..|].
    rewrite lookup_app_r, Nat.sub_diag, <-head_lookup by lia. done. }
  destruct id as [|c id]; [simpl in Hlen; lia|].
  apply Forall_cons in Hall as [Hc Hall].
  change ((c :: id) ++ tail) with (c :: (id ++ tail)) in *.
  rewrite scan_cons, Hmatch. cbn [from_option app].
  destruct (scan_digits (Some c) id tail) as (prev' & Hprev' & ->);
    [by apply isdecimal_is_word|done|].
  exists prev'. split; [done|]. f_equal.
  change (c :: id ++ tail) with ((c :: id) ++ tail). by rewrite take_app_length.
Qed.

(** The identifiers shown to the user, one per line, are found again. *)
Lemma scan_join prev (ids : list text) :
  word_char U prev = false →
  Forall (λ id, 5 ≤ length id ∧ Forall (λ c, isdecimal U c = true) id) ids →
  scan U prev (join [10%N] ids) 0 = ids.
Proof.
  intros Hprev Hall. revert prev Hprev.
  induction Hall as [|id ids [Hlen Hid] Hall IH]; intros prev Hprev; [done|].
  destruct ids as [|id' ids].
  - simpl. destruct (scan_identifier prev id [] Hprev Hlen Hid) as (prev' & _ & Heq);
      [done|]. rewrite app_nil_r in Heq. by rewrite Heq.
  - change (join [10%N] (id :: id' :: ids))
      with (id ++ 10%N :: join [10%N] (id' :: ids)).
    destruct (scan_identifier prev id (10%N :: join [10%N] (id' :: ids))
                Hprev Hlen Hid) as (prev' & Hprev' & ->); [by vm_compute|].
    rewrite scan_cons, match_id_after_word by done. simpl.
    f_equal. apply IH. by vm_compute.
Qed.

Lemma unique_ids_NoDup (l : list text) : NoDup l → unique_ids l = l.
Proof.
  unfold unique_ids. induction l as [|u l IH] using rev_ind; [done|].
  intros [Hl [Hu _]]%NoDup_app. rewrite foldl_app. simpl.
  pose proof (unique_loop l) as [Hseen _]. simpl in Hseen.
  specialize (IH Hl). destruct (foldl unique_step ([], ∅) l) as [r seen].
  simpl in *. subst r. unfold unique_step. simpl.
  rewrite decide_False; [done|]. rewrite Hseen. intros Hin.
  apply (Hu u Hin), list_elem_of_singleton. done.
Qed.

End Extraction.

(** C1, as amended: for every text, the extraction step of
    [process_user_ids] returns exactly the maximal runs of at least five
    decimal digits that no word character (letter, digit or underscore)
    touches on either side, each distinct run once, in the order of the
    first occurrences; and it returns ["12345"] for "abc123 12345". *)
Theorem extract_ids_whole_tokens (U : unicode_data) (message_text : text) :
  extracts (whole_token U) message_text (extract_ids U message_text) ∧
  extract_ids U (py "abc123 12345") = [py "12345"].
Proof.
  split; [|by vm_compute].
  destruct (findall_ids_tokens U message_text) as (occ & Hsort & Hocc & Hfind).
  exists occ. split; [done|]. split; [done|].
  unfold extract_ids, unique_ids. rewrite Hfind. apply unique_loop.
Qed.

(** C1, as stated, fails on "_12345": the run is bounded by a character
    that is neither a digit nor alphanumeric, but the underscore is a word
    character and the pattern finds nothing. *)
Lemma extract_ids_underscore :
  ¬ extracts (alnum_token latin1) (py "_12345")
      (extract_ids latin1 (py "_12345")).
Proof.
  intros (occ & _ & Hocc & _ & Hel & _).
  assert (alnum_token latin1 (py "_12345") 1 5) as Htok.
  { unfold alnum_token, token_at. split_and!.
    - lia.
    - simpl. lia.
    - vm_compute. by repeat constructor.
    - right. exists 95%N. by vm_compute.
    - intros c Hc. by vm_compute in Hc. }
  apply Hocc in Htok.
  assert (slice (py "_12345") 1 5 ∈ extract_ids latin1 (py "_12345")) as Hin.
  { apply Hel, list_elem_of_fmap. by exists (1, 5). }
  vm_compute in Hin. by apply elem_of_nil in Hin.
Qed.

(** ** Output formatting *)

Lemma formatted_lines_fmap (user_ids : list text) (amount : text) :
  formatted_lines user_ids amount = line amount <$> user_ids.
Proof.
  unfold formatted_lines.
  induction user_ids as [|u l IH] using rev_ind; [done|].
  by rewrite foldl_app, fmap_app, IH.
Qed.

Lemma join_cons sep (p : text) (ps : list text) :
  join sep (p :: ps) = p ++ concat ((λ q, sep ++ q) <$> ps).
Proof.
  revert p. induction ps as [|q ps IH]; intros p.
  - simpl. by rewrite app_nil_r.
  - change (join sep (p :: q :: ps)) with (p ++ sep ++ join sep (q :: ps)).
    rewrite IH. simpl. by rewrite <-app_assoc.
Qed.

Lemma split_no_sep sep (p : text) : sep ∉ p → split sep p = [p].
Proof.
  induction p as [|c p IH]; [done|]. intros Hc. simpl.
  rewrite not_elem_of_cons in Hc. destruct Hc as [Hne Hc].
  rewrite decide_False by done. by rewrite IH.
Qed.

Lemma split_app_sep sep (p rest : text) :
  sep ∉ p → split sep (p ++ sep :: rest) = p :: split sep rest.
Proof.
  induction p as [|c p IH]; intros Hc; simpl.
  - by rewrite decide_True.
  - rewrite not_elem_of_cons in Hc. destruct Hc as [Hne Hc].
    rewrite decide_False by done. by rewrite IH.
Qed.

Lemma split_join sep (ps : list text) :
  ps ≠ [] → Forall (λ p, sep ∉ p) ps → split sep (join [sep] ps) = ps.
Proof.
  induction ps as [|p ps IH]; [done|]. intros _ Hall.
  apply Forall_cons in Hall as [Hp Hall].
  destruct ps as [|q ps]; [by apply split_no_sep|].
  change (join [sep] (p :: q :: ps)) with (p ++ sep :: join [sep] (q :: ps)).
  rewrite split_app_sep by done. by rewrite IH.
Qed.

(** C2: for a non-empty sequence of tokens and any amount, the formatted
    output consists of one line [<token> <amount>] per token, in the order
    of the tokens, separated by single newlines and with no newline at the
    end: it is the first line followed by a newline and a line for every
    further token, and when neither a token nor the amount contains a
    newline, splitting it at the newlines gives back exactly these lines.
    For ["111"; "222"] and "2.1" it is "111 2.1\n222 2.1". *)
Theorem final_output_lines (user_ids : list text) (amount : text) :
  user_ids ≠ [] →
  formatted_lines user_ids amount = line amount <$> user_ids ∧
  (∃ first rest, user_ids = first :: rest ∧
     final_output user_ids amount
     = line amount first ++ concat ((λ t, [10%N] ++ line amount t) <$> rest)) ∧
  (10%N ∉ amount → Forall (λ t, 10%N ∉ t) user_ids →
     split 10%N (final_output user_ids amount) = line amount <$> user_ids) ∧
  final_output [py "111"; py "222"] (py "2.1")
  = py "111 2.1" ++ [10%N] ++ py "222 2.1".
Proof.
  intros Hne. split; [apply formatted_lines_fmap|]. split; [|split; [|done]].
  - destruct user_ids as [|first rest]; [done|]. exists first, rest. split; [done|].
    unfold final_output. rewrite formatted_lines_fmap, fmap_cons, join_cons.
    by rewrite <-list_fmap_compose.
  - intros Ha Hall. unfold final_output. rewrite formatted_lines_fmap.
    apply split_join; [by destruct user_ids|].
    apply Forall_fmap. eapply Forall_impl; [exact Hall|].
    intros t Ht. simpl. unfold line.
    rewrite !not_elem_of_app, not_elem_of_cons. split_and!; try done.
    apply not_elem_of_nil.
Qed.

Lemma final_output_lines_witness :
  split 10%N (final_output [py "6486714430"; py "7944746107"] (py "2.1"))
  = [py "6486714430 2.1"; py "7944746107 2.1"].
Proof.
  destruct (final_output_lines [py "6486714430"; py "7944746107"] (py "2.1"))
    as (_ & _ & Hsplit & _); [done|].
  apply Hsplit; [|repeat constructor];
    by apply (bool_decide_unpack _); vm_compute.
Defined.

(** ** Reading an identity *)

(** Case analysis on the comparisons of code points in a goal. *)
Ltac code_points :=
  unfold in_range in *;
  repeat match goal with
  | H : context [(?a <=? ?b)%N] |- _ => destruct (N.leb_spec a b)
  | |- context [(?a <=? ?b)%N] => destruct (N.leb_spec a b)
  | H : context [(?a <? ?b)%N] |- _ => destruct (N.ltb_spec a b)
  | |- context [(?a <? ?b)%N] => destruct (N.ltb_spec a b)
  | H : context [(?a =? ?b)%N] |- _ => destruct (N.eqb_spec a b)
  | |- context [(?a =? ?b)%N] => destruct (N.eqb_spec a b)
  end;
  simpl in *; try done; try lia.

Section Reading.
Context (U : unicode_data).

(** A character with a decimal value is rewritten to an ASCII digit. *)
Lemma to_ascii_decimal c :
  isdecimal U c = true → in_range 48 57 (to_ascii U c) = true.
Proof.
  unfold isdecimal, to_ascii, to_decimal, isspace.
  destruct (c <? 127)%N eqn:H127, (c <? 128)%N eqn:H128.
  - destruct (in_range 48 57 c) eqn:Hd; done.
  - code_points.
  - destruct (in_range 48 57 c) eqn:Hd; [|done]. code_points.
  - destruct (ud_space U c) eqn:Hs.
    { by rewrite (ud_space_decimal U c Hs). }
    destruct (ud_decimal U c) as [d|] eqn:Hd; [|done].
    pose proof (ud_decimal_range U c d Hd). intros _. code_points.
Qed.

Lemma isdecimal_not_underscore c : isdecimal U c = true → c ≠ 95%N.
Proof. intros Hc ->. by vm_compute in Hc. Qed.

Lemma digits_value_Some acc need ds :
  Forall (λ c, in_range 48 57 c = true) ds →
  ds ≠ [] ∨ need = false →
  is_Some (digits_value acc need ds).
Proof.
  revert acc need. induction ds as [|c ds IH]; intros acc need Hall Hne; simpl.
  - destruct Hne as [?| ->]; [done|eauto].
  - apply Forall_cons in Hall as [Hc Hall]. rewrite Hc.
    assert ((c =? 95)%N = false) as -> by code_points.
    apply IH; auto.
Qed.

Lemma skip_spaces_digit c s :
  in_range 48 57 c = true → skip_spaces (c :: s) = c :: s.
Proof.
  intros Hc. simpl.
  assert (c_isspace c = false) as -> by (unfold c_isspace; code_points). done.
Qed.

Lemma filter_all (f : N → bool) (s : text) :
  Forall (λ c, f c = true) s → filter (λ c, f c = true) s = s.
Proof.
  induction 1 as [|c s Hc _ IH]; [done|].
  rewrite filter_cons_True by done. by rewrite IH.
Qed.

Lemma digit_count_digits ds :
  Forall (λ c, in_range 48 57 c = true) ds → digit_count ds = length ds.
Proof. intros Hds. unfold digit_count. by rewrite filter_all. Qed.

(** What is left of a non-empty string of decimal digits, and of the
    newline that may follow it, when [int] has rewritten it to ASCII and
    removed the white space at its ends. *)
Lemma trimmed_digits ds tail :
  ds ≠ [] → Forall (λ c, isdecimal U c = true) ds →
  tail = [] ∨ tail = [10%N] →
  Forall (λ c, in_range 48 57 c = true) (to_ascii U <$> ds) ∧
  reverse (skip_spaces (reverse (skip_spaces (to_ascii U <$> ds ++ tail))))
  = to_ascii U <$> ds.
Proof.
  intros Hne Hall Htail. rewrite fmap_app.
  assert (Forall (λ c, in_range 48 57 c = true) (to_ascii U <$> ds)) as Hds.
  { apply Forall_fmap. eapply Forall_impl; [done|]. apply to_ascii_decimal. }
  split; [done|].
  assert (to_ascii U <$> ds ≠ []) as Hne' by (by destruct ds).
  destruct (to_ascii U <$> ds) as [|c ds'] eqn:E; [done|].
  pose proof Hds as [Hc Hds']%Forall_cons.
  change ((c :: ds') ++ _) with (c :: (ds' ++ (to_ascii U <$> tail))).
  rewrite skip_spaces_digit by done.
  change (c :: ds' ++ _) with ((c :: ds') ++ (to_ascii U <$> tail)).
  rewrite reverse_app.
  assert (skip_spaces (reverse (to_ascii U <$> tail) ++ reverse (c :: ds'))
          = reverse (c :: ds')) as ->.
  { assert (skip_spaces (reverse (c :: ds')) = reverse (c :: ds')) as Hrev.
    { destruct (reverse (c :: ds')) as [|d r] eqn:Er; [done|].
      apply skip_spaces_digit.
      assert (d ∈ c :: ds') as Hd.
      { apply elem_of_reverse. rewrite Er. left. }
      by apply (proj1 (Forall_forall _ _) Hds). }
    destruct Htail as [-> | ->]; [done|]. by vm_compute (reverse _ ++ _). }
  by rewrite reverse_involutive.
Qed.

(** [int] reads a non-empty string of at most 4300 decimal digits, also
    when a newline follows it. *)
Lemma py_int_digits ds tail :
  ds ≠ [] → Forall (λ c, isdecimal U c = true) ds →
  tail = [] ∨ tail = [10%N] →
  length ds ≤ int_max_str_digits →
  is_Some (py_int U (ds ++ tail)).
Proof.
  intros Hne Hall Htail Hlen. unfold py_int. cbv zeta.
  destruct (trimmed_digits ds tail Hne Hall Htail) as [Hds ->].
  rewrite digit_count_digits, length_fmap by done.
  rewrite decide_True by done.
  destruct (to_ascii U <$> ds) as [|c ds'] eqn:E; [by destruct ds|].
  pose proof Hds as [Hc Hds']%Forall_cons.
  unfold signed_value.
  assert ((c =? 43)%N = false) as -> by code_points.
  assert ((c =? 45)%N = false) as -> by code_points.
  apply digits_value_Some; auto.
Qed.

(** [int] refuses more than 4300 decimal digits. *)
Lemma py_int_long ds tail :
  ds ≠ [] → Forall (λ c, isdecimal U c = true) ds →
  tail = [] ∨ tail = [10%N] →
  int_max_str_digits < length ds →
  py_int U (ds ++ tail) = None.
Proof.
  intros Hne Hall Htail Hlen. unfold py_int. cbv zeta.
  destruct (trimmed_digits ds tail Hne Hall Htail) as [Hds ->].
  rewrite digit_count_digits, length_fmap by done.
  apply decide_False. apply Nat.lt_nge, Hlen.
Qed.

Lemma take_digit_run s m :
  m ≤ digit_run U s → Forall (λ c, isdecimal U c = true) (take m s).
Proof.
  intros Hm. apply Forall_lookup. intros j c Hj.
  apply lookup_take_Some in Hj as [Hj ?].
  destruct (digit_run_lookup U s j) as (c' & Hc' & ?); [lia|]. congruence.
Qed.

Lemma literal_Some p s rest : literal p s = Some rest → s = p ++ rest.
Proof.
  unfold literal. case_decide as Hp; [|done]. intros [= <-].
  by rewrite <-Hp at 1; rewrite take_drop.
Qed.

(** What the pattern [_\d+$] accepts. *)
Lemma match_identity_inv s :
  match_identity U s = true →
  ∃ ds tail, s = 95%N :: ds ++ tail ∧ ds ≠ [] ∧
    Forall (λ c, isdecimal U c = true) ds ∧ (tail = [] ∨ tail = [10%N]).
Proof.
  destruct s as [|c ds0]; [done|]. simpl.
  intros [Hc Hb]%andb_true_iff. apply N.eqb_eq in Hc as ->.
  apply bool_decide_eq_true_1 in Hb as [m Hm].
  apply backtrack_Some in Hm as ([Hlo Hhi] & Hend & _).
  exists (take m ds0), (drop m ds0). rewrite take_drop.
  split; [done|]. split; [|split].
  - pose proof (digit_run_le U ds0). destruct ds0; simpl in *; [lia|].
    destruct m; [lia|done].
  - by apply take_digit_run.
  - by apply bool_decide_eq_true_1 in Hend.
Qed.

(** The decimal digits of a button payload are those that follow the
    underscore. *)
Lemma decimal_digits_payload action ds tail :
  action = py "approve" ∨ action = py "reject" →
  Forall (λ c, isdecimal U c = true) ds →
  tail = [] ∨ tail = [10%N] →
  decimal_digits U (action ++ 95%N :: ds ++ tail) = length ds.
Proof.
  intros Hact Hall Htail. unfold decimal_digits.
  rewrite filter_app, filter_cons_False, filter_app, (filter_all _ ds)
    by (done || by vm_compute).
  assert (filter (λ c, isdecimal U c = true) action = []) as ->
    by (by destruct Hact as [-> | ->]).
  assert (filter (λ c, isdecimal U c = true) tail = []) as ->
    by (by destruct Htail as [-> | ->]).
  simpl. by rewrite app_nil_r.
Qed.
End Reading.

(** C10, as amended: every button payload that the pattern
    [^(approve|reject)_\d+$] accepts and that holds at most 4300 decimal
    digits, the most that [int] converts, splits at the underscore into
    exactly two parts, the action and the digits, and [int] reads the
    second part: the parsing step of [handle_approval] returns and raises
    nothing. *)
Theorem parse_decision_total (U : unicode_data) (data : text) :
  match_decision U data = true →
  decimal_digits U data ≤ int_max_str_digits →
  ∃ action identity,
    (action = py "approve" ∨ action = py "reject") ∧
    (∃ digits, split 95%N data = [action; digits] ∧
               py_int U digits = Some identity) ∧
    parse_decision U data = Some (action, identity).
Proof.
  unfold match_decision. simpl. rewrite orb_false_r.
  intros Hm Hlen.
  assert (∃ action rest, (action = py "approve" ∨ action = py "reject") ∧
            literal action data = Some rest ∧ match_identity U rest = true)
    as (action & rest & Hact & Hlit & Hid).
  { apply orb_true_iff in Hm as [Hm|Hm].
    - destruct (literal (py "approve") data) as [rest|] eqn:E; [|done]. eauto 6.
    - destruct (literal (py "reject") data) as [rest|] eqn:E; [|done]. eauto 6. }
  apply literal_Some in Hlit as ->.
  apply match_identity_inv in Hid as (ds & tail & -> & Hne & Hall & Htail).
  rewrite decimal_digits_payload in Hlen by done.
  assert (95%N ∉ action) as Hus.
  { destruct Hact as [-> | ->]; vm_compute; intros H%list_elem_of_In;
      simpl in H; intuition discriminate. }
  assert (95%N ∉ ds ++ tail) as Hus'.
  { rewrite not_elem_of_app. split.
    - intros Hin. apply (proj1 (Forall_forall _ _) Hall) in Hin.
      by apply isdecimal_not_underscore in Hin.
    - destruct Htail as [-> | ->]; [apply not_elem_of_nil|].
      rewrite not_elem_of_cons. split; [done|apply not_elem_of_nil]. }
  destruct (py_int_digits U ds tail Hne Hall Htail Hlen) as [number Hint].
  assert (split 95%N (action ++ 95%N :: ds ++ tail) = [action; ds ++ tail]) as Hsplit.
  { rewrite split_app_sep by done. by rewrite split_no_sep. }
  exists action, number. split; [done|]. split; [eauto|].
  unfold parse_decision. by rewrite Hsplit, Hint.
Qed.

Lemma parse_decision_total_witness :
  ∃ action identity,
    (action = py "approve" ∨ action = py "reject") ∧
    (∃ digits, split 95%N (py "approve_6486714430") = [action; digits] ∧
               py_int latin1 digits = Some identity) ∧
    parse_decision latin1 (py "approve_6486714430") = Some (action, identity).
Proof.
  apply (parse_decision_total latin1 (py "approve_6486714430"));
    [by vm_compute|].
  apply Nat.leb_le. by vm_compute.
Defined.

(** C10, as stated, fails on ["approve_"] followed by 4301 ones: the
    pattern accepts the payload and the text splits into the action and
    the digits, but [int] refuses that many digits, so the parsing step
    raises [ValueError]; [handle_approval] of bot.py then ends in its
    error branch with nothing decided, and that of main.py raises. *)
Lemma parse_decision_long_payload :
  let data := py "approve_" ++ replicate 4301 49%N in
  match_decision latin1 data = true ∧
  split 95%N data = [py "approve"; replicate 4301 49%N] ∧
  py_int latin1 (replicate 4301 49%N) = None ∧
  parse_decision latin1 data = None ∧
  Bot.handle_approval latin1 (λ _, true)
    (CallbackUpdate 42 data) initial []
  = (Returned None, initial, [answer]) ∧
  Main.handle_approval latin1 (λ _, true)
    (CallbackUpdate 42 data) initial []
  = (Raised ValueError, initial, [answer]).
Proof. by vm_compute. Qed.

(** ** The approval store *)

(** Unfolds the operations of [M]. *)
Ltac run_M :=
  unfold mbind, M_bind, mret, M_ret, try_except, await, get, modify, value,
    raise, store_request, set_pending, set_approved, set_user_data in *;
  simpl in *.



(** Unfolds the handlers of both files down to the operations of [M]. *)
Ltac run_handler :=
  unfold Bot.handle, Main.handle,
    Bot.start, Bot.help_command, Bot.cancel, Bot.handle_approval,
    Bot.handle_payment_format, Bot.handle_message_user, Bot.process_user_ids,
    Bot.process_amount, Bot.get_user_id_for_message, Bot.show_admin_menu,
    Bot.show_payment_format,
    Main.start, Main.help_command, Main.cancel, Main.handle_approval,
    Main.handle_payment_format, Main.process_user_ids, Main.process_amount,
    Main.show_payment_format,
    handle_approval_body, decide_request, process_user_ids_body,
    process_amount_body, handle_payment_format_body, cancel_body in *;
  run_M.

(** Case analysis on the tests that a handler makes, innermost first. *)
Ltac handler_case :=
  match goal with
  | |- context [match ?x with _ => _ end] =>
      lazymatch x with
      | context [match _ with _ => _ end] => fail
      | _ => destruct x eqn:?
      end
  end.

Ltac handler_cases := repeat (simpl in *; handler_case); simpl in *.

Section Store.
Context (U : unicode_data) (ADMIN_ID : Z).


End Store.


(** ** The entry command *)

Lemma new_calls_app out (cs : list call) (o : outcome (option conv_state)) w :
  new_calls out (o, w, out ++ cs) = cs.
Proof. unfold new_calls. simpl. by rewrite drop_app_length. Qed.

Lemma new_calls_nil out (o : outcome (option conv_state)) w :
  new_calls out (o, w, out) = [].
Proof. unfold new_calls. simpl. by rewrite drop_all. Qed.

(** C3, as amended: in [bot.py] the entry command of the administrator
    leaves the whole state as it is, so no PendingRequest is stored, and
    sends no approval request: the only calls are the administrator menu
    or, when that fails, the error notice; with a gateway that carries out
    the reply, the menu is presented. [main.py] has no administrator menu:
    there the administrator who is not approved gets a PendingRequest like
    any other identity. *)
Theorem start_administrator (ADMIN_ID : Z) (gateway : call → bool)
    (update : message_update) (w : world) (out : list call) :
  user_id (effective_user update) = ADMIN_ID →
  let bot := Bot.start ADMIN_ID gateway update w out in
  let main := Main.start ADMIN_ID gateway update w out in
  bot.1.2 = w ∧
  (∀ c, c ∈ new_calls out bot →
     c = reply_text AdminMenu ∨ c = reply_text ErrorOccurred) ∧
  (gateway (reply_text AdminMenu) = true → administrator_excluded w out bot) ∧
  (ADMIN_ID ∉ approved_users w →
     pending_approvals main.1.2 !! ADMIN_ID
     = Some (Profile (username (effective_user update))
               (first_name (effective_user update))
               (default [] (last_name (effective_user update))))).
Proof.
  intros Hadmin bot main. subst bot main. run_handler.
  rewrite decide_True by done. simpl. split_and!.
  - by handler_cases.
  - intros c. handler_cases; rewrite ?new_calls_app, ?new_calls_nil;
      intros Hc; try (by apply elem_of_nil in Hc);
      apply list_elem_of_singleton in Hc; auto.
  - intros ->. unfold administrator_excluded, receives. simpl.
    by rewrite new_calls_app.
  - intros Hnin. rewrite decide_False by (by rewrite Hadmin).
    handler_cases; rewrite Hadmin; apply lookup_insert_eq.
Qed.

Lemma start_administrator_witness :
  administrator_excluded initial []
    (Bot.start 42 (λ _, true)
       (MessageUpdate (User 42 None (py "Admin") None) (py "/start"))
       initial []).
Proof.
  by apply (start_administrator 42 (λ _, true)
              (MessageUpdate (User 42 None (py "Admin") None) (py "/start"))
              initial []).
Defined.

(** C3, as stated, fails for [main.py]: the entry command of the
    administrator stores a request and sends the administrator an approval
    request about itself. *)
Lemma main_start_administrator :
  ¬ administrator_excluded initial []
      (Main.start 42 (λ _, true)
         (MessageUpdate (User 42 None (py "Admin") None) (py "/start"))
         initial []).
Proof. intros [[_ Hcalls] _]. vm_compute in Hcalls. discriminate. Qed.

(** C7, as amended: the entry command of an identity in ApprovedSet leaves
    [pending_approvals] as it is, in both files and whatever the gateway
    does; with a gateway that carries out the reply, the identity receives
    the payment-format prompt, except that in [bot.py] the administrator
    receives the administrator menu. *)
Theorem start_approved (ADMIN_ID : Z) (gateway : call → bool)
    (update : message_update) (w : world) (out : list call) :
  user_id (effective_user update) ∈ approved_users w →
  let bot := Bot.start ADMIN_ID gateway update w out in
  let main := Main.start ADMIN_ID gateway update w out in
  pending_approvals bot.1.2 = pending_approvals w ∧
  pending_approvals main.1.2 = pending_approvals w ∧
  (gateway (reply_text Welcome) = true →
     receives Welcome out main ∧
     (user_id (effective_user update) ≠ ADMIN_ID → receives Welcome out bot)) ∧
  (gateway (reply_text AdminMenu) = true →
     user_id (effective_user update) = ADMIN_ID → receives AdminMenu out bot).
Proof.
  intros Happroved bot main. subst bot main. run_handler. split_and!.
  - by handler_cases.
  - by handler_cases.
  - intros ->. unfold receives. split; [|intros Hne];
      handler_cases; by rewrite ?new_calls_app.
  - intros -> Hadmin. unfold receives.
    handler_cases; by rewrite ?new_calls_app.
Qed.

Lemma start_approved_witness :
  let w := World ∅ {[ 7%Z ]} ∅ in
  let update := MessageUpdate (User 7 None (py "Ann") None) (py "/start") in
  pending_approvals (Bot.start 42 (λ _, true) update w []).1.2 = ∅ ∧
  receives Welcome [] (Bot.start 42 (λ _, true) update w []).
Proof.
  intros w update.
  destruct (start_approved 42 (λ _, true) update w [])
    as (Hp & _ & Hw & _); [by vm_compute|].
  split; [exact Hp|]. by apply Hw.
Defined.

(** C7, as stated, fails in [bot.py] for an approved administrator: after
    an approve decision that names the administrator, the entry command
    of the administrator is answered with the administrator menu. *)
Lemma start_approved_administrator :
  let w :=
    (Bot.handle latin1 42 (λ _, true)
       (Bot.Approval (CallbackUpdate 42 (py "approve_42"))) initial []).1.2 in
  let update := MessageUpdate (User 42 None (py "Admin") None) (py "/start") in
  42%Z ∈ approved_users w ∧
  ¬ receives Welcome [] (Bot.start 42 (λ _, true) update w []).
Proof.
  split; [by vm_compute|]. intros [_ Hcalls]. vm_compute in Hcalls. discriminate.
Qed.

(** ** The identity to message *)

Lemma isdigit_decimal (U : unicode_data) (s : text) :
  s ≠ [] → forallb (isdecimal U) s = true → isdigit U s = true.
Proof.
  intros Hne Hall. unfold isdigit. destruct s as [|c s]; [done|].
  apply forallb_forall. intros d Hd. unfold isdigit_char.
  by rewrite (proj1 (forallb_forall _ _) Hall d Hd).
Qed.

Lemma forallb_Forall {A} (f : A → bool) (l : list A) :
  forallb f l = true → Forall (λ x, f x = true) l.
Proof.
  intros Hall. apply Forall_forall. intros x Hx%list_elem_of_In.
  by apply (proj1 (forallb_forall _ _) Hall).
Qed.

(** C8, as amended: with a gateway that carries out the replies,
    [get_user_id_for_message] looks at the received text with the white
    space at its ends removed. When that is not made of digits only or is
    shorter than five characters, the handler asks again and stays in the
    same state; when it is made of decimal digits only, five at least and
    4300 at most, which is as many as [int] converts, the handler shows
    the link to the identity that the digits denote, presents the
    administrator menu again and ends the conversation. *)
Theorem get_user_id_for_message_validates (U : unicode_data)
    (gateway : call → bool) (update : message_update)
    (w : world) (out : list call) :
  (∀ c, gateway c = true) →
  let user_input := strip U (message_text update) in
  let r := Bot.get_user_id_for_message U gateway update w out in
  (isdigit U user_input = false ∨ length user_input < 5 → asks_again w out r) ∧
  (all_decimal_digits U user_input = true →
   length user_input ≤ int_max_str_digits →
     ∃ identity, py_int U user_input = Some identity ∧ links_to identity w out r).
Proof.
  intros Hgw user_input r. subst r. unfold asks_again, links_to.
  run_handler. fold user_input. split.
  - intros Hbad.
    assert (negb (isdigit U user_input) || bool_decide (length user_input < 5)
            = true) as ->.
    { destruct Hbad as [-> | Hlen]; [done|].
      rewrite (bool_decide_eq_true_2 _ Hlen). apply orb_true_r. }
    by rewrite Hgw.
  - intros [Hall Hlen%bool_decide_eq_true_1]%andb_true_iff Hmax.
    assert (user_input ≠ []) as Hne by (destruct user_input; simpl in *; [lia|done]).
    rewrite (isdigit_decimal U user_input Hne Hall).
    rewrite bool_decide_eq_false_2 by lia. simpl.
    destruct (py_int_digits U user_input [] Hne) as [identity Hint];
      [by apply forallb_Forall| by left| done |].
    rewrite app_nil_r in Hint. exists identity. split; [done|].
    rewrite Hint. simpl. rewrite !Hgw. simpl. by rewrite <-app_assoc.
Qed.

Lemma get_user_id_for_message_validates_witness :
  links_to 6486714430 initial []
    (Bot.get_user_id_for_message latin1 (λ _, true)
       (MessageUpdate (User 42 None (py "Admin") None) (py "6486714430"))
       initial []).
Proof.
  destruct (get_user_id_for_message_validates latin1 (λ _, true)
              (MessageUpdate (User 42 None (py "Admin") None) (py "6486714430"))
              initial [])
    as [_ Hlink]; [done|].
  destruct Hlink as (identity & Hint & Hlink);
    [by vm_compute| apply Nat.leb_le; by vm_compute |].
  vm_compute in Hint. by injection Hint as <-.
Defined.

(** C8, as stated, fails on " 12345": the text is not made of decimal
    digits only, and the handler accepts it, because it tests the text
    without the white space at its ends. *)
Lemma get_user_id_for_message_strips :
  all_decimal_digits latin1 (py " 12345") = false ∧
  links_to 12345 initial []
    (Bot.get_user_id_for_message latin1 (λ _, true)
       (MessageUpdate (User 42 None (py "Admin") None) (py " 12345"))
       initial []).
Proof. by vm_compute. Qed.

(** Digits without a decimal value pass the test of [isdigit] but [int]
    does not read them: on five superscript twos the handler neither asks
    again nor shows a link, it reports an error and ends the
    conversation. *)
Example get_user_id_for_message_superscript :
  Bot.get_user_id_for_message latin1 (λ _, true)
    (MessageUpdate (User 42 None (py "Admin") None) [178; 178; 178; 178; 178]%N)
    initial []
  = (Returned (Some END), initial, [reply_text ErrorRestart]).
Proof. by vm_compute. Qed.

(** ** Determinism of the extraction *)

(** The run of the statements of [process_user_ids], by cases on the
    extracted identifiers. *)
Lemma process_user_ids_body_run (U : unicode_data) (gateway : call → bool)
    (update : message_update) (w : world) (out : list call) :
  let ids := extract_ids U (message_text update) in
  let stored :=
    set_user_data <[user_id (effective_user update) := ids]> w in
  process_user_ids_body U gateway update w out
  = match ids with
    | [] =>
        if gateway (reply_text NoIdsFound)
        then (Returned (Some WAITING_FOR_IDS), w, out ++ [reply_text NoIdsFound])
        else (Raised TelegramError, w, out)
    | _ =>
        if gateway (reply_text (FoundIds (length ids) (join [10%N] ids)))
        then (Returned (Some WAITING_FOR_AMOUNT), stored,
              out ++ [reply_text (FoundIds (length ids) (join [10%N] ids))])
        else (Raised TelegramError, stored, out)
    end.
Proof.
  intros ids stored. subst ids stored. unfold extract_ids. run_handler.
  destruct (findall_ids U (message_text update)) as [|t l] eqn:Hfind.
  - simpl. by destruct (gateway (reply_text NoIdsFound)).
  - destruct (unique_loop (t :: l)) as (_ & _ & Hel & _).
    fold (unique_ids (t :: l)) in Hel.
    destruct (unique_ids (t :: l)) as [|t' l'] eqn:Hunique.
    { exfalso. eapply elem_of_nil, Hel. left. }
    simpl. by destruct (gateway _).
Qed.

(** C9: the extraction is a function of the text alone. In both files,
    two runs of [process_user_ids] on the same update, from any two states
    and call logs, return the same next state and make the same calls;
    when identifiers are found, both store exactly the extracted sequence;
    and running the handler again after itself leaves the stored sequence
    as it is. *)
Theorem process_user_ids_deterministic (U : unicode_data)
    (gateway : call → bool) (update : message_update)
    (w1 w2 : world) (out1 out2 : list call) :
  let ids := extract_ids U (message_text update) in
  let stored (r : run) := user_data r.1.2 !! user_id (effective_user update) in
  let same (handler : message_update → M (option conv_state)) :=
    let r1 := handler update w1 out1 in
    let r2 := handler update w2 out2 in
    r1.1.1 = r2.1.1 ∧
    new_calls out1 r1 = new_calls out2 r2 ∧
    (ids ≠ [] → stored r1 = Some ids ∧ stored r2 = Some ids) ∧
    user_data (handler update r1.1.2 r1.2).1.2 = user_data r1.1.2 in
  same (Bot.process_user_ids U gateway) ∧
  same (Main.process_user_ids U gateway).
Proof.
  intros ids stored same. subst same stored.
  unfold Bot.process_user_ids, Main.process_user_ids, try_except.
  pose proof (process_user_ids_body_run U gateway update) as Hrun.
  cbv zeta in Hrun. fold ids in Hrun. clearbody ids.
  unfold mbind, M_bind, mret, M_ret, await. rewrite !Hrun.
  destruct (gateway (reply_text ErrorRestart)) eqn:Herr.
  all: destruct ids as [|t l]; cbn [fst snd].
  all: destruct (gateway _) eqn:Hgw; cbn [fst snd];
    rewrite ?Hrun, ?Hgw, ?Herr; cbn [fst snd];
    rewrite ?Hrun, ?Hgw, ?Herr, ?new_calls_app, ?new_calls_nil; cbn;
    rewrite ?lookup_insert_eq, ?insert_insert_eq; done.
Qed.

(** ** Start-up *)

(** C6, as amended: in [bot.py] a missing token, a missing administrator
    identity, or one that [int] does not read, ends the process with exit
    status 1 before [main()] is called. In [main.py] an administrator
    identity that [int] does not read raises at the module level, which
    ends the process before [main()] is called, but a missing one is
    replaced by 0 and [main()] is called. *)
Theorem load_misconfigured (U : unicode_data) (environ : gmap string text) :
  environ !! "BOT_TOKEN"%string = None
  ∨ environ !! "ADMIN_ID"%string = None
  ∨ (∃ admin, environ !! "ADMIN_ID"%string = Some admin ∧ py_int U admin = None) →
  bot_exits (Bot.load U environ) ∧
  ((∃ admin, environ !! "ADMIN_ID"%string = Some admin ∧ py_int U admin = None) →
     main_exits (Main.load U environ)) ∧
  (environ !! "ADMIN_ID"%string = None →
     Main.load U environ
     = Main.RunMain (environ !! "BOT_TOKEN"%string) 0
         (default (py "@dtxzahid") (environ !! "OWNER_USERNAME"%string))).
Proof.
  intros Hbad. unfold bot_exits, main_exits, Bot.load, Main.load. split_and!.
  - destruct Hbad as [-> | [-> | (admin & -> & Hint)]]; [done| |].
    + by destruct (environ !! "BOT_TOKEN"%string) as [[|??]|].
    + rewrite Hint.
      destruct (environ !! "BOT_TOKEN"%string) as [[|??]|]; [done| |done].
      by destruct admin.
  - intros (admin & -> & ->). eauto.
  - by intros ->.
Qed.

Lemma load_misconfigured_witness :
  bot_exits (Bot.load latin1 {[ "BOT_TOKEN"%string := py "1:a" ]}) ∧
  bot_exits (Bot.load latin1 {[ "ADMIN_ID"%string := py "42" ]}) ∧
  bot_exits (Bot.load latin1 {[ "BOT_TOKEN"%string := py "1:a";
                                "ADMIN_ID"%string := py "admin" ]}) ∧
  main_exits (Main.load latin1 {[ "BOT_TOKEN"%string := py "1:a";
                                  "ADMIN_ID"%string := py "admin" ]}).
Proof.
  split_and!.
  - apply (load_misconfigured latin1 {[ "BOT_TOKEN"%string := py "1:a" ]}).
    right. left. by vm_compute.
  - apply (load_misconfigured latin1 {[ "ADMIN_ID"%string := py "42" ]}).
    left. by vm_compute.
  - apply (load_misconfigured latin1
             {[ "BOT_TOKEN"%string := py "1:a"; "ADMIN_ID"%string := py "admin" ]}).
    right. right. exists (py "admin"). by vm_compute.
  - apply (load_misconfigured latin1
             {[ "BOT_TOKEN"%string := py "1:a"; "ADMIN_ID"%string := py "admin" ]}).
    + right. right. exists (py "admin"). by vm_compute.
    + exists (py "admin"). by vm_compute.
Defined.

(** C6, as stated, fails for [main.py]: without an administrator
    identity in the environment the process does not end, [main()] is
    called with the administrator identity 0. *)
Lemma main_load_without_administrator :
  let environ : gmap string text := {[ "BOT_TOKEN"%string := py "1:a" ]} in
  environ !! "ADMIN_ID"%string = None ∧
  ¬ main_exits (Main.load latin1 environ) ∧
  Main.load latin1 environ = Main.RunMain (Some (py "1:a")) 0 (py "@dtxzahid").
Proof.
  split_and!; [by vm_compute| |by vm_compute].
  intros [e He]. vm_compute in He. discriminate.
Qed.

Example bot_load_configured :
  Bot.load latin1 {[ "BOT_TOKEN"%string := py "1:a"; "ADMIN_ID"%string := py "42" ]}
  = Bot.RunMain (py "1:a") 42 (py "@dtxzahid").
Proof. by vm_compute. Qed.

(** ** Further properties *)

(** Extraction is idempotent on what it shows: extracting from the
    identifiers echoed to the user, one per line, returns the same
    sequence. *)
Theorem extract_ids_idempotent (U : unicode_data) (message_text : text) :
  extract_ids U (join [10%N] (extract_ids U message_text))
  = extract_ids U message_text.
Proof.
  destruct (findall_ids_tokens U message_text) as (occ & _ & Hocc & Hfind).
  pose proof (unique_loop (findall_ids U message_text)) as (_ & Hnd & Hel & _).
  fold (unique_ids (findall_ids U message_text)) in Hnd, Hel.
  fold (extract_ids U message_text) in Hnd, Hel.
  unfold extract_ids at 1. unfold findall_ids at 1.
  rewrite scan_join; [by apply unique_ids_NoDup|done|].
  apply Forall_forall. intros id Hid. apply Hel in Hid. rewrite Hfind in Hid.
  apply list_elem_of_fmap in Hid as ([i n] & -> & Hin).
  apply Hocc in Hin as (Hn & Hlen & Hall & _). simpl. split; [|done].
  unfold slice. rewrite length_take, length_drop. lia.
Qed.

(** In [bot.py] no update stores a request for the administrator. *)
Lemma bot_handle_pending_administrator (U : unicode_data) (ADMIN_ID : Z)
    gateway ev w out :
  pending_approvals w !! ADMIN_ID = None →
  pending_approvals (Bot.handle U ADMIN_ID gateway ev w out).1.2 !! ADMIN_ID
  = None.
Proof.
  intros Hnone. destruct ev; run_handler; handler_cases;
    try done;
    try (rewrite lookup_insert_ne by done; done);
    apply lookup_delete_None; auto.
Qed.

(** Over every sequence of updates handled by [bot.py], whatever the
    gateway does, the administrator has no PendingRequest if it had none
    at the start. *)
Theorem bot_administrator_never_pending (U : unicode_data) (ADMIN_ID : Z)
    (w w' : world) :
  rtc (Bot.step U ADMIN_ID) w w' →
  pending_approvals w !! ADMIN_ID = None →
  pending_approvals w' !! ADMIN_ID = None.
Proof.
  induction 1 as [w|w w1 w' Hstep _ IH]; [done|]. intros Hnone. apply IH.
  destruct Hstep as [gateway ev w out].
  by apply bot_handle_pending_administrator.
Qed.

Lemma bot_administrator_never_pending_witness :
  pending_approvals
    (Bot.handle latin1 42 (λ _, true)
       (Bot.Start (MessageUpdate (User 42 None (py "Admin") None) (py "/start")))
       initial []).1.2 !! 42%Z = None.
Proof.
  apply (bot_administrator_never_pending latin1 42 initial); [|done].
  apply rtc_once. constructor.
Defined.

(** The approval scenario in [bot.py], with a gateway that carries out
    every call: an unknown identity sends the entry command and the
    administrator is asked; the administrator approves through the button
    of that request; the identity sends the entry command again and
    receives the payment-format prompt, with no request left. *)
Example approval_scenario :
  let ann := User 7 (Some (py "ann")) (py "Ann") None in
  let start := Bot.Start (MessageUpdate ann (py "/start")) in
  let r1 := Bot.handle latin1 42 (λ _, true) start initial [] in
  let r2 :=
    Bot.handle latin1 42 (λ _, true)
      (Bot.Approval (CallbackUpdate 42 (py "approve_7"))) r1.1.2 [] in
  let r3 := Bot.handle latin1 42 (λ _, true) start r2.1.2 [] in
  (∃ user_info,
     r1.2 = [send_message 42
               (NewUserRequest user_info (py "approve_7") (py "reject_7"));
             reply_text RequestSent]) ∧
  pending_approvals r1.1.2 !! 7%Z = Some (Profile (Some (py "ann")) (py "Ann") []) ∧
  r2.2 = [answer;
          edit_message_text (UserApproved 7 (py "ann") (py "Ann") []);
          send_message 7 RequestApproved] ∧
  7%Z ∈ approved_users r2.1.2 ∧
  r3.2 = [reply_text Welcome] ∧
  pending_approvals r3.1.2 = ∅.
Proof. split_and!; [eexists|..]; by vm_compute. Qed.

(** ** The numerals of [str] *)

Lemma string_of_uint_digits d :
  Forall (λ c, in_range 48 57 c = true) (py (NilEmpty.string_of_uint d)).
Proof. induction d; simpl; constructor; done. Qed.

Lemma digits_value_uint d acc need :
  d ≠ Decimal.Nil ∨ need = false →
  digits_value acc need (py (NilEmpty.string_of_uint d))
  = Some (acc * 10 ^ Z.of_N (DecimalPos.Unsigned.usize d)
          + Z.of_N (DecimalPos.Unsigned.of_lu (Decimal.rev d)))%Z.
Proof.
  revert acc need.
  induction d as [|d IH|d IH|d IH|d IH|d IH|d IH|d IH|d IH|d IH|d IH];
    intros acc need Hne.
  { destruct Hne as [?| ->]; [done|]. simpl. f_equal. lia. }
  all: change (py (NilEmpty.string_of_uint (?D d)))
         with (N_of_ascii (match NilEmpty.string_of_uint (D d) with String c _ => c | _ => "0"%char end)
               :: py (NilEmpty.string_of_uint d)).
  all: cbn [digits_value NilEmpty.string_of_uint N_of_ascii].
  all: repeat match goal with
       | |- context [N_of_digits ?l] =>
           let v := eval vm_compute in (N_of_digits l) in
           change (N_of_digits l) with v
       end.
  all: cbn [N.eqb Pos.eqb in_range N.leb N.compare Pos.compare Pos.compare_cont andb N.sub Pos.sub Pos.sub_mask Pos.double_mask Pos.succ_double_mask Pos.double_pred_mask Pos.pred_double Z.of_N].
  all: rewrite IH by (by right).
  all: unfold Decimal.rev; cbn [Decimal.revapp DecimalPos.Unsigned.usize];
    rewrite (DecimalPos.Unsigned.of_lu_revapp d (_ Decimal.Nil)); cbn [DecimalPos.Unsigned.of_lu];
    fold (Decimal.rev d);
    rewrite N2Z.inj_succ, Z.pow_succ_r by lia;
    rewrite N2Z.inj_add, N2Z.inj_mul, N2Z.inj_pow; f_equal;
    change (Z.of_N 10) with 10%Z; simpl Z.of_N; ring.
Qed.

(** [str(n)] is a minus sign when [n] is negative, and then the digits of
    the absolute value of [n]. *)
Lemma str_of_int_shape (n : Z) :
  ∃ ds, ds ≠ [] ∧ Forall (λ c, in_range 48 57 c = true) ds ∧
    digits_value 0 true ds = Some (Z.abs n) ∧
    str_of_int n = (if (n <? 0)%Z then [45%N] else []) ++ ds.
Proof.
  assert (∀ p, ∃ ds, ds ≠ [] ∧ Forall (λ c, in_range 48 57 c = true) ds ∧
            digits_value 0 true ds = Some (Z.pos p) ∧
            py (NilZero.string_of_uint (Pos.to_uint p)) = ds) as Hpos.
  { intros p. pose proof (DecimalPos.Unsigned.to_uint_nonnil p) as Hnil.
    exists (py (NilEmpty.string_of_uint (Pos.to_uint p))). split_and!.
    - destruct (Pos.to_uint p); done.
    - apply string_of_uint_digits.
    - rewrite digits_value_uint by (by left).
      by rewrite <-DecimalPos.Unsigned.of_uint_alt, DecimalPos.Unsigned.of_to.
    - by destruct (Pos.to_uint p). }
  unfold str_of_int. destruct n as [|p|p]; simpl.
  - exists [48%N]. split_and!; try done. by repeat constructor.
  - destruct (Hpos p) as (ds & ? & ? & ? & <-). eauto.
  - destruct (Hpos p) as (ds & ? & ? & ? & <-).
    exists (py (NilZero.string_of_uint (Pos.to_uint p))). split_and!; done.
Qed.

Section Trim.
Context (U : unicode_data).

Lemma to_ascii_low c : (c < 127)%N → to_ascii U c = c.
Proof. intros Hc. unfold to_ascii. by rewrite (proj2 (N.ltb_lt _ _) Hc). Qed.

Lemma skip_spaces_head (s : text) :
  (∀ c, head s = Some c → c_isspace c = false) → skip_spaces s = s.
Proof. destruct s as [|c s]; [done|]. intros Hc. simpl. by rewrite (Hc c). Qed.

(** Nothing is taken off a string that neither starts nor ends with
    white space. *)
Lemma trim_id (s : text) :
  (∀ c, head s = Some c → c_isspace c = false) →
  (∀ c, last s = Some c → c_isspace c = false) →
  reverse (skip_spaces (reverse (skip_spaces s))) = s.
Proof.
  intros Hhead Hlast. rewrite (skip_spaces_head s Hhead).
  rewrite skip_spaces_head; [apply reverse_involutive|].
  intros c Hc. apply Hlast. by rewrite <-head_reverse.
Qed.

Lemma digit_not_space c : in_range 48 57 c = true → c_isspace c = false.
Proof. intros Hc. unfold c_isspace. code_points. Qed.

(** [int] on an optional minus sign and ASCII digits. *)
Lemma py_int_ascii (sign ds : text) :
  sign = [] ∨ sign = [45%N] →
  ds ≠ [] → Forall (λ c, in_range 48 57 c = true) ds →
  py_int U (sign ++ ds)
  = if decide (length ds ≤ int_max_str_digits)
    then (if decide (sign = []) then id else Z.opp) <$> digits_value 0 true ds
    else None.
Proof.
  intros Hsign Hne Hall. unfold py_int. cbv zeta.
  assert (to_ascii U <$> sign ++ ds = sign ++ ds) as ->.
  { rewrite <-(list_fmap_id (sign ++ ds)) at 2. apply Forall_fmap_ext_1.
    apply Forall_app. split.
    - destruct Hsign as [-> | ->]; repeat constructor.
    - eapply Forall_impl; [done|]. intros c Hc. apply to_ascii_low. code_points. }
  rewrite trim_id.
  - assert (digit_count (sign ++ ds) = length ds) as ->.
    { unfold digit_count. rewrite filter_app, (filter_all _ ds) by done.
      by destruct Hsign as [-> | ->]. }
    case_decide; [|done].
    destruct ds as [|d ds]; [done|]. apply Forall_cons in Hall as [Hd Hall].
    destruct Hsign as [-> | ->]; simpl.
    + assert ((d =? 43)%N = false) as -> by code_points.
      assert ((d =? 45)%N = false) as -> by code_points.
      rewrite Hd. assert ((d =? 95)%N = false) as -> by code_points.
      by destruct (digits_value _ _ _).
    + done.
  - intros c Hc. destruct Hsign as [-> | ->]; simpl in Hc.
    + destruct ds as [|d ds]; [done|]. injection Hc as <-.
      apply Forall_cons in Hall as [Hd _]. by apply digit_not_space.
    + by injection Hc as <-.
  - intros c Hc. rewrite last_app in Hc.
    destruct (last ds) as [d|] eqn:Hd.
    + injection Hc as <-. apply digit_not_space.
      apply (proj1 (Forall_forall _ _) Hall). by apply last_Some_elem_of.
    + apply last_None in Hd. done.
Qed.

(** [int(str(n))] is [n] when [str(n)] has no more digits than [int]
    converts. *)
Lemma py_int_str_of_int (n : Z) :
  digit_count (str_of_int n) ≤ int_max_str_digits →
  py_int U (str_of_int n) = Some n.
Proof.
  destruct (str_of_int_shape n) as (ds & Hne & Hall & Hval & ->).
  intros Hlen.
  assert (digit_count ((if (n <? 0)%Z then [45%N] else []) ++ ds) = length ds)
    as Hcount.
  { unfold digit_count. rewrite filter_app, (filter_all _ ds) by done.
    by destruct (n <? 0)%Z. }
  rewrite Hcount in Hlen.
  rewrite py_int_ascii; [|destruct (n <? 0)%Z; auto|done..].
  rewrite decide_True by done.
  rewrite Hval. destruct (Z.ltb_spec n 0); simpl; f_equal; lia.
Qed.
End Trim.

Lemma isdecimal_ascii_digit U c : in_range 48 57 c = true → isdecimal U c = true.
Proof.
  intros Hc. unfold isdecimal, to_decimal. rewrite Hc.
  assert ((c <? 128)%N = true) as -> by code_points. done.
Qed.

Lemma match_identity_digits U ds :
  ds ≠ [] → Forall (λ c, in_range 48 57 c = true) ds →
  match_identity U (95%N :: ds) = true.
Proof.
  intros Hne Hall. simpl. apply bool_decide_eq_true_2.
  assert (digit_run U ds = length ds) as ->.
  { rewrite <-(app_nil_r ds) at 1. apply digit_run_app; [|done].
    eapply Forall_impl; [done|]. apply isdecimal_ascii_digit. }
  rewrite backtrack_top; [by eexists| |].
  - destruct ds; simpl; [done|lia].
  - by rewrite drop_all.
Qed.

Lemma str_of_int_no_underscore n : 95%N ∉ str_of_int n.
Proof.
  destruct (str_of_int_shape n) as (ds & _ & Hall & _ & ->).
  rewrite not_elem_of_app. split.
  - destruct (n <? 0)%Z; [|apply not_elem_of_nil].
    rewrite not_elem_of_cons. split; [done|apply not_elem_of_nil].
  - intros Hin. apply (proj1 (Forall_forall _ _) Hall) in Hin. done.
Qed.

(** The pattern [_\d+$] accepts the numeral of [n] exactly when [n] is
    not negative: the minus sign is no digit. *)
Lemma match_identity_str_of_int U n :
  match_identity U (95%N :: str_of_int n) = true ↔ (0 ≤ n)%Z.
Proof.
  destruct (str_of_int_shape n) as (ds & Hne & Hall & _ & ->).
  destruct (Z.ltb_spec n 0); simpl app.
  - split; [done|lia].
  - rewrite match_identity_digits by done. split; [lia|done].
Qed.

(** The two buttons that [start] puts under the request carry payloads
    that [handle_approval] reads back as the decision and the identity of
    the user who asked; the pattern of the dispatcher routes them to
    [handle_approval] exactly when the identity is not negative. *)
Theorem request_buttons_round_trip (U : unicode_data) (user : user) :
  digit_count (str_of_int (user_id user)) ≤ int_max_str_digits →
  ∃ user_info approve_data reject_data,
    new_user_request user = NewUserRequest user_info approve_data reject_data ∧
    parse_decision U approve_data = Some (py "approve", user_id user) ∧
    parse_decision U reject_data = Some (py "reject", user_id user) ∧
    (match_decision U approve_data = true ↔ (0 ≤ user_id user)%Z) ∧
    (match_decision U reject_data = true ↔ (0 ≤ user_id user)%Z).
Proof.
  intros Hlen. eexists _, _, _. split; [reflexivity|].
  pose proof (str_of_int_no_underscore (user_id user)) as Hus.
  split_and!.
  - unfold parse_decision.
    change (py "approve_" ++ ?s) with (py "approve" ++ 95%N :: s).
    rewrite split_app_sep, split_no_sep, py_int_str_of_int;
      [done|done|done|by apply (bool_decide_unpack _); vm_compute].
  - unfold parse_decision.
    change (py "reject_" ++ ?s) with (py "reject" ++ 95%N :: s).
    rewrite split_app_sep, split_no_sep, py_int_str_of_int;
      [done|done|done|by apply (bool_decide_unpack _); vm_compute].
  - rewrite <-(match_identity_str_of_int U). unfold match_decision, literal. simpl.
    by rewrite orb_false_r.
  - rewrite <-(match_identity_str_of_int U). unfold match_decision, literal. simpl.
    by rewrite orb_false_r.
Qed.

Lemma request_buttons_round_trip_witness :
  ∃ user_info approve_data reject_data,
    new_user_request (User 6486714430 None (py "Asha") None)
    = NewUserRequest user_info approve_data reject_data ∧
    parse_decision latin1 approve_data = Some (py "approve", 6486714430%Z) ∧
    parse_decision latin1 reject_data = Some (py "reject", 6486714430%Z) ∧
    (match_decision latin1 approve_data = true ↔ (0 ≤ 6486714430)%Z) ∧
    (match_decision latin1 reject_data = true ↔ (0 ≤ 6486714430)%Z).
Proof.
  apply (request_buttons_round_trip latin1 (User 6486714430 None (py "Asha") None)).
  apply Nat.leb_le. by vm_compute.
Defined.

(** ** Payloads and texts that [int] refuses *)

(** A payload that the pattern accepts and that holds more than 4300
    decimal digits makes [int] raise inside [handle_approval]: once the
    button is acknowledged, the handler of bot.py ends in its error
    branch and that of main.py raises, and neither decides anything. *)
Theorem handle_approval_long_payload (U : unicode_data)
    (gateway : call → bool) (update : callback_update)
    (w : world) (out : list call) :
  match_decision U (data update) = true →
  int_max_str_digits < decimal_digits U (data update) →
  gateway answer = true →
  parse_decision U (data update) = None ∧
  Bot.handle_approval U gateway update w out
  = (Returned None, w, out ++ [answer]) ∧
  Main.handle_approval U gateway update w out
  = (Raised ValueError, w, out ++ [answer]).
Proof.
  unfold match_decision. simpl. rewrite orb_false_r.
  intros Hm Hlen Hgw.
  assert (∃ action rest, (action = py "approve" ∨ action = py "reject") ∧
            literal action (data update) = Some rest ∧
            match_identity U rest = true)
    as (action & rest & Hact & Hlit & Hid).
  { apply orb_true_iff in Hm as [Hm|Hm].
    - destruct (literal (py "approve") (data update)) as [rest|] eqn:E; [|done].
      eauto 6.
    - destruct (literal (py "reject") (data update)) as [rest|] eqn:E; [|done].
      eauto 6. }
  apply literal_Some in Hlit.
  apply match_identity_inv in Hid as (ds & tail & -> & Hne & Hall & Htail).
  rewrite Hlit, decimal_digits_payload in Hlen by done.
  assert (95%N ∉ action) as Hus.
  { destruct Hact as [-> | ->]; vm_compute; intros H%list_elem_of_In;
      simpl in H; intuition discriminate. }
  assert (95%N ∉ ds ++ tail) as Hus'.
  { rewrite not_elem_of_app. split.
    - intros Hin. apply (proj1 (Forall_forall _ _) Hall) in Hin.
      by apply isdecimal_not_underscore in Hin.
    - destruct Htail as [-> | ->]; [apply not_elem_of_nil|].
      rewrite not_elem_of_cons. split; [done|apply not_elem_of_nil]. }
  assert (parse_decision U (data update) = None) as Hparse.
  { unfold parse_decision. rewrite Hlit, split_app_sep, split_no_sep by done.
    by rewrite (py_int_long U ds tail). }
  split; [done|]. clear Hlit.
  run_handler. by rewrite Hgw, Hparse.
Qed.

Lemma handle_approval_long_payload_witness :
  let update := CallbackUpdate 42 (py "reject_" ++ replicate 4301 57%N) in
  parse_decision latin1 (data update) = None ∧
  Bot.handle_approval latin1 (λ _, true) update initial []
  = (Returned None, initial, [] ++ [answer]) ∧
  Main.handle_approval latin1 (λ _, true) update initial []
  = (Raised ValueError, initial, [] ++ [answer]).
Proof.
  apply (handle_approval_long_payload latin1 (λ _, true)
           (CallbackUpdate 42 (py "reject_" ++ replicate 4301 57%N)) initial []).
  - by vm_compute.
  - apply Nat.ltb_lt. by vm_compute.
  - done.
Defined.

(** A text of more than 4300 decimal digits passes the test of
    [get_user_id_for_message], [int] refuses it, and the handler reports
    an error and ends the conversation. *)
Theorem get_user_id_for_message_too_long (U : unicode_data)
    (gateway : call → bool) (update : message_update)
    (w : world) (out : list call) :
  let user_input := strip U (message_text update) in
  forallb (isdecimal U) user_input = true →
  int_max_str_digits < length user_input →
  gateway (reply_text ErrorRestart) = true →
  py_int U user_input = None ∧
  Bot.get_user_id_for_message U gateway update w out
  = (Returned (Some END), w, out ++ [reply_text ErrorRestart]).
Proof.
  intros user_input Hall Hlen Hgw.
  assert (user_input ≠ []) as Hne.
  { intros E. rewrite E in Hlen. simpl in Hlen. lia. }
  assert (5 ≤ length user_input) as Hfive.
  { etrans; [|apply Nat.lt_le_incl, Hlen]. apply Nat.leb_le. by vm_compute. }
  assert (py_int U user_input = None) as Hint.
  { rewrite <-(app_nil_r user_input).
    apply py_int_long; [done|by apply forallb_Forall|by left|done]. }
  split; [done|]. run_handler. fold user_input.
  rewrite (isdigit_decimal U user_input Hne Hall).
  rewrite bool_decide_eq_false_2 by lia. simpl.
  rewrite Hint. simpl. by rewrite Hgw.
Qed.

Lemma get_user_id_for_message_too_long_witness :
  let update :=
    MessageUpdate (User 42 None (py "Admin") None) (replicate 4301 49%N) in
  py_int latin1 (strip latin1 (message_text update)) = None ∧
  Bot.get_user_id_for_message latin1 (λ _, true) update initial []
  = (Returned (Some END), initial, [] ++ [reply_text ErrorRestart]).
Proof.
  apply (get_user_id_for_message_too_long latin1 (λ _, true)
           (MessageUpdate (User 42 None (py "Admin") None) (replicate 4301 49%N))
           initial []).
  - by vm_compute.
  - apply Nat.ltb_lt. by vm_compute.
  - done.
Defined.

Section Strip.
Context (U : unicode_data).

Lemma lstrip_head (s : text) c :
  head (lstrip U s) = Some c → isspace U c = false.
Proof.
  induction s as [|d s IH]; [done|]. simpl.
  destruct (isspace U d) eqn:Hd; [done|]. by intros [= <-].
Qed.

Lemma lstrip_suffix (s : text) : ∃ pre, s = pre ++ lstrip U s.
Proof.
  induction s as [|c s [pre Hs]]; [by exists []|]. simpl.
  destruct (isspace U c).
  - exists (c :: pre). by rewrite Hs at 1.
  - by exists [].
Qed.

Lemma rstrip_prefix (s : text) : ∃ suf, s = rstrip U s ++ suf.
Proof.
  unfold rstrip. destruct (lstrip_suffix (reverse s)) as [pre Hs].
  exists (reverse pre). rewrite <-reverse_app, <-Hs. by rewrite reverse_involutive.
Qed.

Lemma rstrip_last (s : text) c :
  last (rstrip U s) = Some c → isspace U c = false.
Proof. unfold rstrip. rewrite last_reverse. apply lstrip_head. Qed.

(** The stripped text neither starts nor ends with white space. *)
Lemma strip_ends (s : text) c :
  head (strip U s) = Some c ∨ last (strip U s) = Some c → isspace U c = false.
Proof.
  unfold strip. intros [Hc|Hc]; [|by eapply rstrip_last].
  destruct (rstrip_prefix (lstrip U s)) as [suf Hs].
  apply (lstrip_head s). rewrite Hs.
  destruct (rstrip U (lstrip U s)); [done|]. done.
Qed.

(** A text of white space only is stripped to the empty string. *)
Lemma strip_blank (s : text) :
  Forall (λ c, isspace U c = true) s → strip U s = [].
Proof.
  intros Hall. unfold strip.
  assert (lstrip U s = []) as ->; [|done].
  induction Hall as [|c s Hc _ IH]; [done|]. simpl. by rewrite Hc.
Qed.

Lemma to_ascii_not_space c :
  isspace U c = false → c_isspace (to_ascii U c) = false.
Proof.
  unfold to_ascii, c_isspace. intros Hc.
  destruct (c <? 127)%N eqn:Hlow.
  - unfold isspace in Hc. assert ((c <? 128)%N = true) as Hlow' by code_points.
    rewrite Hlow' in Hc. apply orb_false_iff in Hc as [-> Hc]. simpl.
    clear Hlow'. code_points.
  - rewrite Hc. destruct (to_decimal U c) as [d|] eqn:Hd; [|done].
    assert (d < 10)%N.
    { unfold to_decimal in Hd. destruct (c <? 128)%N.
      - destruct (in_range 48 57 c) eqn:Hr; [|done]. injection Hd as <-. code_points.
      - by eapply ud_decimal_range. }
    code_points.
Qed.

Lemma digits_value_None acc need (s : text) x :
  x ∈ s → x ≠ 95%N → in_range 48 57 x = false →
  digits_value acc need s = None.
Proof.
  intros Hin Hx Hr. revert acc need.
  induction s as [|c s IH]; intros acc need; [by apply elem_of_nil in Hin|].
  simpl. apply elem_of_cons in Hin as [<-|Hin].
  - rewrite (proj2 (N.eqb_neq _ _) Hx). by rewrite Hr.
  - destruct (c =? 95)%N; [destruct need; [done|by apply IH]|].
    destruct (in_range 48 57 c); [by apply IH|done].
Qed.

(** A digit is rewritten to an ASCII digit when it has a decimal value, and
    to a space or a question mark otherwise. *)
Lemma to_ascii_digit c :
  isdigit_char U c = true →
  if isdecimal U c then in_range 48 57 (to_ascii U c) = true
  else to_ascii U c = 32%N ∨ to_ascii U c = 63%N.
Proof.
  intros Hc. destruct (isdecimal U c) eqn:Hd; [by apply to_ascii_decimal|].
  unfold isdigit_char in Hc. rewrite Hd in Hc. simpl in Hc.
  apply andb_true_iff in Hc as [Hhigh _].
  unfold to_ascii. assert ((c <? 127)%N = false) as -> by code_points.
  destruct (isspace U c); [by left|right].
  unfold isdecimal in Hd. by destruct (to_decimal U c).
Qed.

(** [int] raises on a text of digits one of which has no decimal value. *)
Lemma py_int_nondecimal (s : text) :
  isdigit U s = true → forallb (isdecimal U) s = false →
  (∀ c, head s = Some c ∨ last s = Some c → isspace U c = false) →
  py_int U s = None.
Proof.
  intros Hdigit Hdec Hends. unfold py_int. cbv zeta.
  case_decide; [|done].
  assert (Forall (λ c, isdigit_char U c = true) s) as Hall.
  { destruct s; [done|]. by apply forallb_Forall. }
  rewrite trim_id.
  - destruct s as [|c s]; [done|]. rewrite fmap_cons. unfold signed_value.
    pose proof (to_ascii_digit c) as Hc.
    specialize (Hc (Forall_inv Hall)).
    assert ((to_ascii U c =? 43)%N = false ∧ (to_ascii U c =? 45)%N = false)
      as [-> ->].
    { destruct (isdecimal U c); [code_points|]. by destruct Hc as [-> | ->]. }
    assert (∃ d, d ∈ c :: s ∧ isdecimal U d = false) as (d & Hd & Hnd).
    { apply not_true_iff_false in Hdec.
      destruct (decide (Forall (λ d, isdecimal U d = true) (c :: s))) as [Hf|Hf].
      - exfalso. apply Hdec, forallb_forall. intros x Hx%list_elem_of_In.
        by apply (proj1 (Forall_forall _ _) Hf).
      - apply not_Forall_Exists in Hf; [|apply _].
        apply Exists_exists in Hf as (d & Hd & Hnd). exists d. split; [done|].
        by apply not_true_is_false. }
    pose proof (to_ascii_digit d (proj1 (Forall_forall _ _) Hall d Hd)) as Hd'.
    rewrite Hnd in Hd'.
    apply (digits_value_None _ _ _ (to_ascii U d)).
    + rewrite <-fmap_cons. apply list_elem_of_fmap. eauto.
    + by destruct Hd' as [-> | ->].
    + by destruct Hd' as [-> | ->].
  - intros c Hc. rewrite head_lookup, list_lookup_fmap in Hc.
    destruct (s !! 0) as [c0|] eqn:H0; [|done]. injection Hc as <-.
    apply to_ascii_not_space, Hends. left. by rewrite head_lookup.
  - intros c Hc. rewrite fmap_last in Hc.
    destruct (last s) as [c0|] eqn:H0; [|done]. injection Hc as <-.
    apply to_ascii_not_space, Hends. by right.
Qed.
End Strip.

(** A text that passes [isdigit] and the length test but holds a digit
    without a decimal value, such as a superscript two, is neither asked
    for again nor linked: [int] raises, and the handler reports an error
    and ends the conversation. *)
Theorem get_user_id_for_message_nondecimal (U : unicode_data)
    (gateway : call → bool) (update : message_update)
    (w : world) (out : list call) :
  let user_input := strip U (message_text update) in
  isdigit U user_input = true → 5 ≤ length user_input →
  forallb (isdecimal U) user_input = false →
  gateway (reply_text ErrorRestart) = true →
  Bot.get_user_id_for_message U gateway update w out
  = (Returned (Some END), w, out ++ [reply_text ErrorRestart]).
Proof.
  intros user_input Hdigit Hlen Hdec Hgw. run_handler. fold user_input.
  rewrite Hdigit, bool_decide_eq_false_2 by lia. simpl.
  rewrite (py_int_nondecimal U user_input Hdigit Hdec).
  - simpl. by rewrite Hgw.
  - intros c Hc. by apply (strip_ends U (message_text update)).
Qed.

Lemma get_user_id_for_message_nondecimal_witness :
  Bot.get_user_id_for_message latin1 (λ _, true)
    (MessageUpdate (User 42 None (py "Admin") None)
       (py " 1234" ++ [185%N; 32%N]))
    initial []
  = (Returned (Some END), initial, [] ++ [reply_text ErrorRestart]).
Proof.
  apply (get_user_id_for_message_nondecimal latin1 (λ _, true)
           (MessageUpdate (User 42 None (py "Admin") None)
              (py " 1234" ++ [185%N; 32%N]))
           initial []).
  - by vm_compute.
  - vm_compute. lia.
  - by vm_compute.
  - done.
Defined.

(** ** The administrator's button *)

(** [handle_message_user] changes nothing in the store and always
    returns; it opens the conversation that asks for an identity only for
    the administrator, and anyone else who presses the button is told
    that it is for the administrator. *)
Theorem handle_message_user_administrator_only (ADMIN_ID : Z)
    (gateway : call → bool) (update : callback_update)
    (w : world) (out : list call) :
  let r := Bot.handle_message_user ADMIN_ID gateway update w out in
  r.1.2 = w ∧
  (∃ next, r.1.1 = Returned next) ∧
  (r.1.1 = Returned (Some WAITING_FOR_USER_ID) ↔
     from_user update = ADMIN_ID ∧ gateway answer = true ∧
     gateway (edit_message_text AskUserId) = true) ∧
  (from_user update ≠ ADMIN_ID → gateway answer = true →
     gateway (edit_message_text AdminOnly) = true →
     r = (Returned None, w, out ++ [answer; edit_message_text AdminOnly])).
Proof.
  intros r. subst r. run_handler. split_and!.
  - by handler_cases.
  - handler_cases; eauto.
  - handler_cases. all: try (split; [done|by intros (? & ? & ?)]). all: try (split; [|done]).
    intros _. split; [|done]. by destruct (decide (from_user update = ADMIN_ID)).
  - intros Hne -> ->. rewrite decide_True by done. simpl. by rewrite <-app_assoc.
Qed.

Lemma handle_message_user_administrator_only_witness :
  Bot.handle_message_user 42 (λ _, true) (CallbackUpdate 7 (py "message_user"))
    initial []
  = (Returned None, initial, [] ++ [answer; edit_message_text AdminOnly]).
Proof.
  by apply (handle_message_user_administrator_only 42 (λ _, true)
              (CallbackUpdate 7 (py "message_user")) initial []).
Defined.

(** ** The amount *)

Section Amount.
Context (U : unicode_data) (ADMIN_ID : Z) (gateway : call → bool).

(** An amount of white space only is asked for again, in both files, and
    nothing is stored or cleared. *)
Theorem process_amount_blank (update : message_update) (w : world)
    (out : list call) :
  Forall (λ c, isspace U c = true) (message_text update) →
  gateway (reply_text InvalidAmount) = true →
  let again :=
    (Returned (Some WAITING_FOR_AMOUNT), w, out ++ [reply_text InvalidAmount]) in
  Bot.process_amount U ADMIN_ID gateway update w out = again ∧
  Main.process_amount U gateway update w out = again.
Proof.
  intros Hblank Hgw again. subst again. run_handler.
  rewrite (strip_blank U _ Hblank). simpl. by rewrite Hgw.
Qed.

(** An amount sent when no identifiers are stored for the user, or an
    empty list of them, ends the conversation with a notice and leaves
    the store as it is. *)
Theorem process_amount_without_ids (update : message_update) (w : world)
    (out : list call) :
  strip U (message_text update) ≠ [] →
  user_data w !! user_id (effective_user update) = None
  ∨ user_data w !! user_id (effective_user update) = Some [] →
  gateway (reply_text NoStoredIds) = true →
  let over := (Returned (Some END), w, out ++ [reply_text NoStoredIds]) in
  Bot.process_amount U ADMIN_ID gateway update w out = over ∧
  Main.process_amount U gateway update w out = over.
Proof.
  intros Hamount Hids Hgw over. subst over. run_handler.
  destruct (strip U (message_text update)) as [|c amount]; [done|]. simpl.
  destruct Hids as [-> | ->]; simpl; by rewrite Hgw.
Qed.
End Amount.

Lemma process_amount_blank_witness :
  let update := MessageUpdate (User 7 None (py "Asha") None) (py "   ") in
  Bot.process_amount latin1 42 (λ _, true) update initial []
  = (Returned (Some WAITING_FOR_AMOUNT), initial, [] ++ [reply_text InvalidAmount]) ∧
  Main.process_amount latin1 (λ _, true) update initial []
  = (Returned (Some WAITING_FOR_AMOUNT), initial, [] ++ [reply_text InvalidAmount]).
Proof.
  apply (process_amount_blank latin1 42 (λ _, true)
           (MessageUpdate (User 7 None (py "Asha") None) (py "   ")) initial []).
  - by repeat constructor.
  - done.
Defined.

Lemma process_amount_without_ids_witness :
  let update := MessageUpdate (User 7 None (py "Asha") None) (py "2.1") in
  Bot.process_amount latin1 42 (λ _, true) update initial []
  = (Returned (Some END), initial, [] ++ [reply_text NoStoredIds]) ∧
  Main.process_amount latin1 (λ _, true) update initial []
  = (Returned (Some END), initial, [] ++ [reply_text NoStoredIds]).
Proof.
  apply (process_amount_without_ids latin1 42 (λ _, true)
           (MessageUpdate (User 7 None (py "Asha") None) (py "2.1")) initial []).
  - by vm_compute.
  - by left.
  - done.
Defined.

(** ** The whole formatting flow *)

(** With a gateway that carries out the replies, a text in which
    identifiers are found followed by an amount that is not blank gives,
    in both files, the list of the identifiers, then one line
    ["<id> <amount>"] for each identifier in the order of extraction, and
    the conversation ends with the identifiers of the user cleared. In
    bot.py the administrator is shown the menu at the end, everyone else
    the button to format more. *)
Theorem format_flow (U : unicode_data) (ADMIN_ID : Z) (gateway : call → bool)
    (user : user) (ids_text amount_text : text) (w : world) (out : list call) :
  (∀ c, gateway c = true) →
  let ids := extract_ids U ids_text in
  let amount := strip U amount_text in
  ids ≠ [] → amount ≠ [] →
  let found := reply_text (FoundIds (length ids) (join [10%N] ids)) in
  let output :=
    reply_text (FormattedOutput (join [10%N] (line amount <$> ids))) in
  let cleared := set_user_data (delete (user_id user)) w in
  let flow (process_user_ids process_amount
              : message_update → M (option conv_state)) :=
    let r := process_user_ids (MessageUpdate user ids_text) w out in
    process_amount (MessageUpdate user amount_text) r.1.2 r.2 in
  flow (Main.process_user_ids U gateway) (Main.process_amount U gateway)
  = (Returned (Some END), cleared, out ++ [found; output; reply_text FormatMore]) ∧
  flow (Bot.process_user_ids U gateway) (Bot.process_amount U ADMIN_ID gateway)
  = (Returned (Some END), cleared,
     out ++ [found; output;
             reply_text (if decide (user_id user = ADMIN_ID)
                         then AdminMenu else FormatMore)]).
Proof.
  intros Hgw ids amount Hids Hamount found output cleared flow.
  subst flow found output cleared.
  unfold Bot.process_user_ids, Main.process_user_ids, try_except.
  rewrite !process_user_ids_body_run. simpl message_text. fold ids.
  clearbody ids. destruct ids as [|t l]; [done|]. rewrite !Hgw.
  cbn [fst snd].
  unfold Bot.process_amount, Main.process_amount, process_amount_body, try_except,
    final_output, Bot.show_admin_menu.
  cbn [message_text effective_user]. cbv zeta. subst amount.
  destruct (strip U amount_text) as [|c a]; [done|].
  run_M. rewrite !lookup_insert_eq. simpl.
  rewrite !Hgw. simpl. rewrite formatted_lines_fmap, delete_insert_eq.
  split.
  - by rewrite <-!app_assoc.
  - destruct (decide (user_id user = ADMIN_ID)); rewrite ?Hgw; simpl;
      by rewrite <-!app_assoc.
Qed.

Lemma format_flow_witness :
  let user := User 7 None (py "Asha") None in
  let r :=
    Main.process_user_ids latin1 (λ _, true)
      (MessageUpdate user (py "64867 x 79447 64867")) initial [] in
  Main.process_amount latin1 (λ _, true) (MessageUpdate user (py " 2.1 "))
    r.1.2 r.2
  = (Returned (Some END), initial,
     [reply_text (FoundIds 2 (py "64867" ++ [10%N] ++ py "79447"));
      reply_text (FormattedOutput (py "64867 2.1" ++ [10%N] ++ py "79447 2.1"));
      reply_text FormatMore]).
Proof.
  destruct (format_flow latin1 42 (λ _, true) (User 7 None (py "Asha") None)
              (py "64867 x 79447 64867") (py " 2.1 ") initial [])
    as [Hmain _]; [done|by vm_compute|by vm_compute|].
  etrans; [exact Hmain|]. by vm_compute.
Defined.

(** ** Cancelling *)

(** [cancel] clears the identifiers stored for the user who sends it and
    nothing else, whether or not the notice can be sent: the identifiers
    of the other users, the requests and the approvals stay. When the
    notice cannot be sent, bot.py still ends the conversation, and
    main.py raises. *)
Theorem cancel_clears (gateway : call → bool) (update : message_update)
    (w : world) (out : list call) :
  let sender := user_id (effective_user update) in
  let bot := Bot.cancel gateway update w out in
  let main := Main.cancel gateway update w out in
  bot.1.1 = Returned (Some END) ∧
  main.1.2 = bot.1.2 ∧
  user_data bot.1.2 !! sender = None ∧
  (∀ other, other ≠ sender → user_data bot.1.2 !! other = user_data w !! other) ∧
  pending_approvals bot.1.2 = pending_approvals w ∧
  approved_users bot.1.2 = approved_users w ∧
  new_calls out bot
  = (if gateway (reply_text Cancelled) then [reply_text Cancelled] else []) ∧
  main.1.1 = (if gateway (reply_text Cancelled)
              then Returned (Some END) else Raised TelegramError).
Proof.
  intros sender bot main. subst bot main sender. unfold new_calls.
  run_handler.
  destruct (gateway (reply_text Cancelled)); simpl; split_and!; try done.
  all: try apply lookup_delete_eq.
  all: try (intros other Hother; by apply lookup_delete_ne).
  all: by rewrite ?drop_app_length, ?drop_all.
Qed.
